(** * Add-on settings handling (xbmc/addons/Addon.cpp)

    A shallow embedding of the settings part of [CAddon]: lazy loading of the
    settings definition, loading and saving of the user values, the string
    and the typed accessors.  The member functions are state transformers
    over the add-on object and the outside world (file system, log, host
    notifications); the collaborators whose code is not part of Addon.cpp
    (TinyXML, URIUtils, the setting nodes' string conversion) are the fields
    of the class [Externals]. *)

From Stdlib Require Import ZArith PrimFloat.
From stdpp Require Import base option strings list gmap.

Set Default Proof Using "Type".

(** ** Setting nodes *)

(** Modelled from the spec: the kinds of setting (SettingType of
    settings/lib/Setting.h, not part of Addon.cpp), the closed set boolean,
    integer, number, string that the typed accessors dispatch on through
    [CSettingBool::Type()], [CSettingInt::Type()], ... *)
Inductive SettingType :=
| SettingType_Boolean
| SettingType_Integer
| SettingType_Number
| SettingType_String.

Global Instance SettingType_eq_dec : EqDecision SettingType.
Proof. solve_decision. Defined.

(** Modelled from the spec: the setting nodes (CSettingBool, CSettingInt,
    CSettingNumber, CSettingString of settings/lib/Setting.h), each a typed
    value with its default and its current value.  The C++ [int] payload is
    carried as a [Z] and the [double] payload as a binary64 float; no
    arithmetic is done on either. *)
Inductive CSetting :=
| CSettingBool (m_default m_value : bool)
| CSettingInt (m_default m_value : Z)
| CSettingNumber (m_default m_value : float)
| CSettingString (m_default m_value : string).

(** Modelled from the spec: CSetting::GetType, the kind of a node. *)
Definition GetType (s : CSetting) : SettingType :=
  match s with
  | CSettingBool _ _ => SettingType_Boolean
  | CSettingInt _ _ => SettingType_Integer
  | CSettingNumber _ _ => SettingType_Number
  | CSettingString _ _ => SettingType_String
  end.

(** Modelled from the spec: CSetting::Reset, after which the current value
    is the default. *)
Definition Reset (s : CSetting) : CSetting :=
  match s with
  | CSettingBool d _ => CSettingBool d d
  | CSettingInt d _ => CSettingInt d d
  | CSettingNumber d _ => CSettingNumber d d
  | CSettingString d _ => CSettingString d d
  end.

(** The value of the node is the one its definition gave it. *)
Definition IsDefault (s : CSetting) : Prop := Reset s = s.

(** Modelled from the spec: what a template argument [TSetting] of
    [GetSettingValue] and [UpdateSettingValue] provides, namely
    [TSetting::Value], [TSetting::Type()] and, behind
    [std::static_pointer_cast<TSetting>], [GetValue] and [SetValue] (which
    assigns the current value).  The cast is only meaningful on a node of
    the right kind, hence the options.  [Create] is the node that
    [CAddonSettings::AddSetting] makes of a value. *)
Record TSetting := {
  Value : Type;
  Type_ : SettingType;
  GetValue : CSetting → option Value;
  SetValue : Value → CSetting → option CSetting;
  Create : Value → CSetting
}.

Definition TSettingBool : TSetting := {|
  Value := bool;
  Type_ := SettingType_Boolean;
  GetValue s := match s with CSettingBool _ v => Some v | _ => None end;
  SetValue v s := match s with CSettingBool d _ => Some (CSettingBool d v) | _ => None end;
  Create v := CSettingBool v v
|}.

Definition TSettingInt : TSetting := {|
  Value := Z;
  Type_ := SettingType_Integer;
  GetValue s := match s with CSettingInt _ v => Some v | _ => None end;
  SetValue v s := match s with CSettingInt d _ => Some (CSettingInt d v) | _ => None end;
  Create v := CSettingInt v v
|}.

Definition TSettingNumber : TSetting := {|
  Value := float;
  Type_ := SettingType_Number;
  GetValue s := match s with CSettingNumber _ v => Some v | _ => None end;
  SetValue v s := match s with CSettingNumber d _ => Some (CSettingNumber d v) | _ => None end;
  Create v := CSettingNumber v v
|}.

Definition TSettingString : TSetting := {|
  Value := string;
  Type_ := SettingType_String;
  GetValue s := match s with CSettingString _ v => Some v | _ => None end;
  SetValue v s := match s with CSettingString d _ => Some (CSettingString d v) | _ => None end;
  Create v := CSettingString v v
|}.

(** The four instantiations the façade uses. *)
Definition IsTSetting (T : TSetting) : Prop :=
  T = TSettingBool ∨ T = TSettingInt ∨ T = TSettingNumber ∨ T = TSettingString.

(** ** External collaborators *)

(** Everything Addon.cpp calls but does not define: the parsed XML document
    of [CXBMCTinyXML], the path helpers of [URIUtils], the string conversion
    of the setting nodes, the way [CAddonSettings] reads and writes a
    document, and the build flag [HAS_PYTHON]. *)
Class Externals := {
  CXBMCTinyXML : Type;
  (** [doc.RootElement() != nullptr] *)
  RootElement : CXBMCTinyXML → bool;
  (** [URIUtils::AddFileToFolder], [URIUtils::GetDirectory] *)
  AddFileToFolder : string → string → string;
  GetDirectory : string → string;
  (** [CSetting::ToString], [CSetting::FromString] *)
  ToString : CSetting → string;
  FromString : string → CSetting → option CSetting;
  (** the setting definitions a document holds, if it is a well-formed
      definition; the (key, text) pairs of a values document; and the
      document built from such pairs, if TinyXML manages to build it *)
  ReadDefinitions : CXBMCTinyXML → option (list (string * CSetting));
  ReadValues : CXBMCTinyXML → option (list (string * string));
  WriteValues : list (string * string) → option CXBMCTinyXML;
  HAS_PYTHON : bool
}.

(** ** The settings store *)

Module AddonSettings.

(** Modelled from the spec: the class CAddonSettings
    (addons/settings/AddonSettings.h), of which Addon.cpp has only the
    calls.  The spec gives it the lifecycle Uninitialized, Initialized,
    Loaded and a table from unique keys to setting nodes. *)
Inductive Lifecycle := Uninitialized | Initialized | Loaded.

Global Instance Lifecycle_eq_dec : EqDecision Lifecycle.
Proof. solve_decision. Defined.

Record CAddonSettings := {
  m_lifecycle : Lifecycle;
  m_table : gmap string CSetting
}.

(** Modelled from the spec: the store a lazy first access creates
    ([std::make_shared<CAddonSettings>]); it starts Uninitialized and empty. *)
Definition make_shared : CAddonSettings :=
  {| m_lifecycle := Uninitialized; m_table := ∅ |}.

(** Modelled from the spec: the state queries of CAddonSettings; a Loaded
    store is an initialized one. *)
Definition IsInitialized (s : CAddonSettings) : bool :=
  match m_lifecycle s with Uninitialized => false | _ => true end.

Definition IsLoaded (s : CAddonSettings) : bool :=
  match m_lifecycle s with Loaded => true | _ => false end.

(** Modelled from the spec: CAddonSettings::SetLoaded, the marker set once a
    load pass completes; the values are not touched. *)
Definition SetLoaded (s : CAddonSettings) : CAddonSettings :=
  {| m_lifecycle := Loaded; m_table := m_table s |}.

(** Modelled from the spec: CAddonSettings::Uninitialize, which discards the
    schema (the forced reload of the spec "first discards and rebuilds"). *)
Definition Uninitialize (s : CAddonSettings) : CAddonSettings :=
  {| m_lifecycle := Uninitialized; m_table := ∅ |}.

(** Modelled from the spec: CAddonSettings::HasSettings, true iff the schema
    has at least one defined key. *)
Definition HasSettings (s : CAddonSettings) : bool :=
  bool_decide (size (m_table s) ≠ 0).

(** Modelled from the spec: CAddonSettings::GetSetting, the exact-key
    lookup. *)
Definition GetSetting (key : string) (s : CAddonSettings) : option CSetting :=
  m_table s !! key.

(** Modelled from the spec: CAddonSettings::SetDefaults, which resets every
    node to its schema default. *)
Definition SetDefaults (s : CAddonSettings) : CAddonSettings :=
  {| m_lifecycle := m_lifecycle s; m_table := Reset <$> m_table s |}.

(** Modelled from the spec: CAddonSettings::AddSetting(key, value), which
    defines an unknown key with the kind of the given value; null when the
    key exists with another kind or cannot be created (an empty key). *)
Definition AddSetting (T : TSetting) (key : string) (value : Value T)
    (s : CAddonSettings) : option CSetting * CAddonSettings :=
  if bool_decide (key = "") then (None, s)
  else match m_table s !! key with
       | Some old =>
           if bool_decide (GetType old = Type_ T) then (Some old, s) else (None, s)
       | None =>
           let node := Create T value in
           (Some node,
            {| m_lifecycle := m_lifecycle s; m_table := <[key := node]> (m_table s) |})
       end.

(** The store after a member function mutated the node stored under [key]
    (nodes are shared pointers into the table). *)
Definition StoreNode (key : string) (node : CSetting) (s : CAddonSettings) : CAddonSettings :=
  {| m_lifecycle := m_lifecycle s; m_table := <[key := node]> (m_table s) |}.

Section WithExternals.
Context `{Externals}.

(** Modelled from the spec: CAddonSettings::Initialize, which parses a
    schema document into setting nodes, each at its default; it fails on an
    initialized store and on a malformed schema, leaving the store as it
    was. *)
Definition Initialize (doc : CXBMCTinyXML) (s : CAddonSettings) : bool * CAddonSettings :=
  if IsInitialized s then (false, s)
  else match ReadDefinitions doc with
       | None => (false, s)
       | Some defs =>
           (true, {| m_lifecycle := Initialized;
                     m_table := Reset <$> (list_to_map defs : gmap string CSetting) |})
       end.

(** One (key, text) pair of a values document applied to the table: a key
    the schema does not have is ignored, and so is a text the node does not
    accept. *)
Definition apply_value (kv : string * string) (t : gmap string CSetting) : gmap string CSetting :=
  match t !! kv.1 with
  | Some node =>
      match FromString kv.2 node with
      | Some node' => <[kv.1 := node']> t
      | None => t
      end
  | None => t
  end.

(** Modelled from the spec: CAddonSettings::Load, which applies the values
    of a document onto the existing nodes by key and completes the load
    pass; it fails on a store that is not initialized and on a document
    that holds no values, leaving the store as it was. *)
Definition Load (doc : CXBMCTinyXML) (s : CAddonSettings) : bool * CAddonSettings :=
  if negb (IsInitialized s) then (false, s)
  else match ReadValues doc with
       | None => (false, s)
       | Some vals =>
           (true, {| m_lifecycle := Loaded; m_table := foldr apply_value (m_table s) vals |})
       end.

(** Modelled from the spec: CAddonSettings::Save, which serializes the
    current values into a document; it fails on a store that is not
    initialized, and when the document cannot be built. *)
Definition Save (s : CAddonSettings) : option CXBMCTinyXML :=
  if negb (IsInitialized s) then None
  else WriteValues (prod_map id ToString <$> map_to_list (m_table s)).

End WithExternals.

End AddonSettings.

Export AddonSettings(CAddonSettings, Lifecycle).

(** ** The add-on object and the outside world *)

(** Modelled from the spec: the instance id (an unsigned integer declared
    outside Addon.cpp) and the reserved id of the add-on's own settings. *)
Definition AddonInstanceId := N.
Definition ADDON_SETTINGS_ID : AddonInstanceId := 0%N.

(** Modelled from the spec: what the façade reads of [m_addonInfo] (class
    CAddonInfo), the identifier, the install path and the profile path. *)
Record AddonInfo := {
  ID : string;
  Path : string;
  ProfilePath : string
}.

(** Modelled from the spec: the data members of [CAddon] that the settings
    handling uses (they are declared in Addon.h).  [m_settings] is the
    shared pointer to the store, null until the first access. *)
Record CAddon := {
  m_addonInfo : AddonInfo;
  m_userSettingsPath : string;
  m_settings : option CAddonSettings;
  m_loadSettingsFailed : bool;
  m_hasUserSettings : bool
}.

(** The messages Addon.cpp logs, all at level LOGERROR. *)
Inductive LogMessage :=
| unable_to_load (file : string) (ErrorRow : Z) (ErrorDesc : string)
| failed_to_initialize_addon_settings
| failed_to_load_addon_settings_from (path : string)
| failed_to_add_undefined_setting (key : string)
| failed_to_load_user_settings
| failed_to_save_addon_settings.

Section Facade.
Context `{Externals}.

(** Modelled from the spec: a file as TinyXML sees it, text that does not
    parse (with the error position and description) or a document; a file
    that does not exist is no entry of [files]. *)
Inductive XmlFile :=
| Malformed (ErrorRow : Z) (ErrorDesc : string)
| WellFormed (doc : CXBMCTinyXML).

(** Every call that leaves the object, in the order it is made. *)
Inductive Event :=
| TinyXML_LoadFile (path : string)
| TinyXML_SaveFile (path : string)
| CFile_Exists (path : string)
| CDirectory_Exists (path : string)
| CDirectory_Create (path : string)
| CLog_Log (addonId : string) (msg : LogMessage)
| AddonMgr_ReloadSettings (addonId : string) (id : AddonInstanceId)
| XBPython_OnSettingsChanged (addonId : string).

Record World := {
  files : gmap string XmlFile;
  directories : gset string;
  events : list Event
}.

(** The constructor: the user values live in settings.xml under the
    profile path; the members it does not mention start as the spec has a
    new add-on, with no store, nothing failed and no user settings. *)
Definition CAddon_new (addonInfo : AddonInfo) : CAddon := {|
  m_addonInfo := addonInfo;
  m_userSettingsPath := AddFileToFolder (ProfilePath addonInfo) "settings.xml";
  m_settings := None;
  m_loadSettingsFailed := false;
  m_hasUserSettings := false
|}.

(** *** Member functions as state transformers *)

(** What stops a run that C++ would not survive or that the bound on nested
    calls cuts short. *)
Inductive Fault := NullPointer | BadCast | OutOfFuel.

Inductive Result (A : Type) :=
| Ok (x : A) (a : CAddon) (w : World)
| Crash (f : Fault).
Global Arguments Ok {A} x a w.
Global Arguments Crash {A} f.

Definition M (A : Type) : Type := CAddon → World → Result A.

Global Instance M_ret : MRet M := λ A x a w, Ok x a w.
Global Instance M_bind : MBind M := λ A B k m a w,
  match m a w with
  | Ok x a' w' => k x a' w'
  | Crash f => Crash f
  end.

Definition crash {A} (f : Fault) : M A := λ _ _, Crash f.
Definition this : M CAddon := λ a w, Ok a a w.
Definition when (b : bool) (m : M ()) : M () := if b then m else mret ().

(** Assignments to the data members. *)
Definition with_settings (o : option CAddonSettings) (a : CAddon) : CAddon :=
  {| m_addonInfo := m_addonInfo a; m_userSettingsPath := m_userSettingsPath a;
     m_settings := o;
     m_loadSettingsFailed := m_loadSettingsFailed a;
     m_hasUserSettings := m_hasUserSettings a |}.

Definition with_loadSettingsFailed (b : bool) (a : CAddon) : CAddon :=
  {| m_addonInfo := m_addonInfo a; m_userSettingsPath := m_userSettingsPath a;
     m_settings := m_settings a;
     m_loadSettingsFailed := b;
     m_hasUserSettings := m_hasUserSettings a |}.

Definition with_hasUserSettings (b : bool) (a : CAddon) : CAddon :=
  {| m_addonInfo := m_addonInfo a; m_userSettingsPath := m_userSettingsPath a;
     m_settings := m_settings a;
     m_loadSettingsFailed := m_loadSettingsFailed a;
     m_hasUserSettings := b |}.

Definition set_settings (o : option CAddonSettings) : M () :=
  λ a w, Ok () (with_settings o a) w.
Definition set_loadSettingsFailed (b : bool) : M () :=
  λ a w, Ok () (with_loadSettingsFailed b a) w.
Definition set_hasUserSettings (b : bool) : M () :=
  λ a w, Ok () (with_hasUserSettings b a) w.

(** [m_settings->f(...)] for a member function [f] of the store that may
    change it; a null [m_settings] is a crash. *)
Definition arrow {A} (f : CAddonSettings → A * CAddonSettings) : M A :=
  a ← this;
  match m_settings a with
  | None => crash NullPointer
  | Some s => set_settings (Some (f s).2) ;; mret (f s).1
  end.

(** [m_settings->f(...)] for a const member function. *)
Definition arrow_const {A} (f : CAddonSettings → A) : M A :=
  a ← this;
  match m_settings a with
  | None => crash NullPointer
  | Some s => mret (f s)
  end.

Definition world : M World := λ a w, Ok w a w.
Definition set_world (w : World) : M () := λ a _, Ok () a w.

Definition emit (e : Event) : M () :=
  w ← world;
  set_world {| files := files w; directories := directories w; events := events w ++ [e] |}.

(** Modelled from the spec: [doc.LoadFile(path)], which gives the document
    of a file that exists and parses, and the error position and
    description otherwise. *)
Definition LoadFile (path : string) : M (Z * string + CXBMCTinyXML) :=
  emit (TinyXML_LoadFile path) ;;
  w ← world;
  mret (match files w !! path with
        | Some (WellFormed doc) => inr doc
        | Some (Malformed row desc) => inl (row, desc)
        | None => inl (0%Z, "Failed to open file")
        end).

(** Modelled from the spec: [doc.SaveFile(path)], which writes the
    document. *)
Definition SaveFile (doc : CXBMCTinyXML) (path : string) : M () :=
  emit (TinyXML_SaveFile path) ;;
  w ← world;
  set_world {| files := <[path := WellFormed doc]> (files w);
               directories := directories w; events := events w |}.

(** Modelled from the spec: [CFile::Exists(path)]. *)
Definition Exists (path : string) : M bool :=
  emit (CFile_Exists path) ;;
  w ← world;
  mret (bool_decide (is_Some (files w !! path))).

(** Modelled from the spec: [CDirectory::Exists(path)] and
    [CDirectory::Create(path)]. *)
Definition DirectoryExists (path : string) : M bool :=
  emit (CDirectory_Exists path) ;;
  w ← world;
  mret (bool_decide (path ∈ directories w)).

Definition DirectoryCreate (path : string) : M () :=
  emit (CDirectory_Create path) ;;
  w ← world;
  set_world {| files := files w; directories := {[path]} ∪ directories w;
               events := events w |}.

(** [CLog::Log(LOGERROR, ...)], the message prefixed with the add-on's id. *)
Definition Log (msg : LogMessage) : M () :=
  a ← this; emit (CLog_Log (ID (m_addonInfo a)) msg).

(** *** Settings handling *)

Definition SettingsInitialized (id : AddonInstanceId) (a : CAddon) : bool :=
  match m_settings a with
  | Some s => AddonSettings.IsInitialized s
  | None => false
  end.

Definition SettingsLoaded (id : AddonInstanceId) (a : CAddon) : bool :=
  match m_settings a with
  | Some s => AddonSettings.IsLoaded s
  | None => false
  end.

(** [CAddon::GetSettings]: the store is created on the first access, and
    that access tries to load the settings.  The shared pointer it returns
    is [m_settings]; callers go on with [arrow]. *)
Definition GetSettings_with (LoadSettings : bool → bool → AddonInstanceId → M bool)
    (id : AddonInstanceId) : M () :=
  a ← this;
  match m_settings a with
  | None =>
      set_settings (Some AddonSettings.make_shared) ;;
      _ ← LoadSettings false true id;
      mret ()
  | Some _ => mret ()
  end.

Definition SettingsFromXML_with (GetSettings : AddonInstanceId → M ())
    (doc : CXBMCTinyXML) (loadDefaults : bool) (id : AddonInstanceId) : M bool :=
  if negb (RootElement doc) then mret false
  else
    a ← this;
    initialized ←
      (if negb (SettingsInitialized id a) then
         GetSettings id ;;
         ok ← arrow (AddonSettings.Initialize doc);
         if negb ok then Log failed_to_initialize_addon_settings ;; mret false
         else mret true
       else mret true);
    if negb initialized then mret false
    else
      when loadDefaults (GetSettings id ;; arrow (λ s, ((), AddonSettings.SetDefaults s))) ;;
      GetSettings id ;;
      ok ← arrow (AddonSettings.Load doc);
      if negb ok then Log failed_to_load_user_settings ;; mret false
      else set_hasUserSettings true ;; mret true.

Definition LoadUserSettings_with (GetSettings : AddonInstanceId → M ())
    (id : AddonInstanceId) : M bool :=
  a ← this;
  if negb (SettingsInitialized id a) then mret false
  else
    set_hasUserSettings false ;;
    ex ← Exists (m_userSettingsPath a);
    if negb ex then
      GetSettings id ;; arrow (λ s, ((), AddonSettings.SetLoaded s)) ;; mret true
    else
      r ← LoadFile (m_userSettingsPath a);
      match r with
      | inl _ =>
          Log (failed_to_load_addon_settings_from (m_userSettingsPath a)) ;; mret false
      | inr doc => SettingsFromXML_with GetSettings doc false id
      end.

(** The settings definition of the add-on:
    [URIUtils::AddFileToFolder(m_addonInfo->Path(), "resources", "settings.xml")]. *)
Definition DefinitionFile (a : CAddon) : string :=
  AddFileToFolder (AddFileToFolder (Path (m_addonInfo a)) "resources") "settings.xml".

Definition LoadSettings_body (GetSettings : AddonInstanceId → M ())
    (bForce loadUserSettings : bool) (id : AddonInstanceId) : M bool :=
  a ← this;
  if SettingsInitialized id a && negb bForce then mret true
  else if m_loadSettingsFailed a then mret false
  else
    set_loadSettingsFailed true ;;
    when (SettingsInitialized id a && bForce)
      (GetSettings id ;; arrow (λ s, ((), AddonSettings.Uninitialize s))) ;;
    let addonSettingsDefinitionFile := DefinitionFile a in
    r ← LoadFile addonSettingsDefinitionFile;
    match r with
    | inl (row, desc) =>
        ex ← Exists addonSettingsDefinitionFile;
        when ex (Log (unable_to_load addonSettingsDefinitionFile row desc)) ;;
        mret false
    | inr addonSettingsDefinitionDoc =>
        GetSettings id ;;
        ok ← arrow (AddonSettings.Initialize addonSettingsDefinitionDoc);
        if negb ok then Log failed_to_initialize_addon_settings ;; mret false
        else
          set_loadSettingsFailed false ;;
          when loadUserSettings (_ ← LoadUserSettings_with GetSettings id; mret ()) ;;
          mret true
    end.

(** [LoadSettings] and [GetSettings] call each other; [fuel] bounds the
    nesting of [LoadSettings] inside itself. *)
Fixpoint LoadSettings_fuel (fuel : nat) (bForce loadUserSettings : bool)
    (id : AddonInstanceId) : M bool :=
  match fuel with
  | O => crash OutOfFuel
  | S n => LoadSettings_body (GetSettings_with (LoadSettings_fuel n)) bForce loadUserSettings id
  end.

(** The nesting never goes deeper than a call inside a call (see
    [LoadSettings_fuel_enough]); one level is kept in reserve. *)
Definition LoadSettings : bool → bool → AddonInstanceId → M bool := LoadSettings_fuel 3.
Definition GetSettings : AddonInstanceId → M () := GetSettings_with LoadSettings.
Definition LoadUserSettings : AddonInstanceId → M bool := LoadUserSettings_with GetSettings.
Definition SettingsFromXML : CXBMCTinyXML → bool → AddonInstanceId → M bool :=
  SettingsFromXML_with GetSettings.

Definition HasSettings (id : AddonInstanceId) : M bool :=
  ok ← LoadSettings false true id;
  if negb ok then mret false else arrow_const AddonSettings.HasSettings.

Definition CanHaveAddonOrInstanceSettings : M bool := HasSettings ADDON_SETTINGS_ID.

Definition HasUserSettings (id : AddonInstanceId) : M bool :=
  ok ← LoadSettings false true id;
  if negb ok then mret false
  else a ← this; mret (SettingsLoaded id a && m_hasUserSettings a).

Definition ReloadSettings (id : AddonInstanceId) : M bool := LoadSettings true true id.

Definition ResetSettings (id : AddonInstanceId) : M () := set_settings None.

Definition HasSettingsToSave (id : AddonInstanceId) (a : CAddon) : bool :=
  SettingsLoaded id a.

(** [CAddon::SettingsToXML]: the document it fills, when it returns true. *)
Definition SettingsToXML (id : AddonInstanceId) : M (option CXBMCTinyXML) :=
  a ← this;
  if negb (SettingsInitialized id a) then mret None
  else
    doc ← arrow_const AddonSettings.Save;
    match doc with
    | None => Log failed_to_save_addon_settings ;; mret None
    | Some doc => mret (Some doc)
    end.

Definition SaveSettings (id : AddonInstanceId) : M () :=
  a ← this;
  if negb (HasSettingsToSave id a) then mret ()
  else
    let strAddon := GetDirectory (m_userSettingsPath a) in
    let strRoot := GetDirectory strAddon in
    ex ← DirectoryExists strRoot;
    when (negb ex) (DirectoryCreate strRoot) ;;
    ex ← DirectoryExists strAddon;
    when (negb ex) (DirectoryCreate strAddon) ;;
    doc ← SettingsToXML id;
    match doc with
    | Some doc => SaveFile doc (m_userSettingsPath a)
    | None => mret ()
    end ;;
    set_hasUserSettings true ;;
    emit (AddonMgr_ReloadSettings (ID (m_addonInfo a)) id) ;;
    when HAS_PYTHON (emit (XBPython_OnSettingsChanged (ID (m_addonInfo a)))).

Definition GetSetting (key : string) (id : AddonInstanceId) : M string :=
  if bool_decide (key = "") then mret ""
  else
    ok ← LoadSettings false true id;
    if negb ok then mret ""
    else
      setting ← arrow_const (AddonSettings.GetSetting key);
      match setting with
      | Some setting => mret (ToString setting)
      | None => mret ""
      end.

(** [GetSettingValue<TSetting>]: [value] is the caller's variable, passed by
    reference; the result pairs the returned flag with what the variable
    holds afterwards. *)
Definition GetSettingValue (T : TSetting) (instanceId : AddonInstanceId)
    (key : string) (value : Value T) : M (bool * Value T) :=
  if bool_decide (key = "") then mret (false, value)
  else
    has ← HasSettings instanceId;
    if negb has then mret (false, value)
    else
      GetSettings instanceId ;;
      setting ← arrow_const (AddonSettings.GetSetting key);
      match setting with
      | None => mret (false, value)
      | Some setting =>
          if bool_decide (GetType setting ≠ Type_ T) then mret (false, value)
          else match GetValue T setting with
               | Some v => mret (true, v)
               | None => crash BadCast
               end
      end.

Definition GetSettingBool (key : string) (value : bool) (id : AddonInstanceId) :=
  GetSettingValue TSettingBool id key value.
Definition GetSettingInt (key : string) (value : Z) (id : AddonInstanceId) :=
  GetSettingValue TSettingInt id key value.
Definition GetSettingNumber (key : string) (value : float) (id : AddonInstanceId) :=
  GetSettingValue TSettingNumber id key value.
Definition GetSettingString (key : string) (value : string) (id : AddonInstanceId) :=
  GetSettingValue TSettingString id key value.

Definition UpdateSetting (key value : string) (id : AddonInstanceId) : M () :=
  if bool_decide (key = "") then mret ()
  else
    ok ← LoadSettings false true id;
    if negb ok then mret ()
    else
      found ← arrow_const (AddonSettings.GetSetting key);
      setting ← match found with
                | Some setting => mret (Some setting)
                | None => arrow (AddonSettings.AddSetting TSettingString key value)
                end;
      match setting with
      | None => Log (failed_to_add_undefined_setting key)
      | Some setting =>
          match FromString value setting with
          | Some setting' => arrow (λ s, ((), AddonSettings.StoreNode key setting' s))
          | None => mret ()
          end
      end.

(** [UpdateSettingValue<TSetting>]; [SetValue] assigns the node under [key]
    in the table and reports success. *)
Definition UpdateSettingValue (T : TSetting) (instanceId : AddonInstanceId)
    (key : string) (value : Value T) : M bool :=
  if bool_decide (key = "") then mret false
  else
    has ← HasSettings instanceId;
    if negb has then mret false
    else
      GetSettings instanceId ;;
      found ← arrow_const (AddonSettings.GetSetting key);
      setting ← match found with
                | Some setting => mret (Some setting)
                | None =>
                    GetSettings instanceId ;;
                    arrow (AddonSettings.AddSetting T key value)
                end;
      match setting with
      | None => Log (failed_to_add_undefined_setting key) ;; mret false
      | Some setting =>
          if bool_decide (GetType setting ≠ Type_ T) then mret false
          else match SetValue T value setting with
               | Some setting' =>
                   arrow (λ s, (true, AddonSettings.StoreNode key setting' s))
               | None => crash BadCast
               end
      end.

Definition UpdateSettingBool (key : string) (value : bool) (id : AddonInstanceId) :=
  UpdateSettingValue TSettingBool id key value.
Definition UpdateSettingInt (key : string) (value : Z) (id : AddonInstanceId) :=
  UpdateSettingValue TSettingInt id key value.
Definition UpdateSettingNumber (key : string) (value : float) (id : AddonInstanceId) :=
  UpdateSettingValue TSettingNumber id key value.
Definition UpdateSettingString (key : string) (value : string) (id : AddonInstanceId) :=
  UpdateSettingValue TSettingString id key value.

(** *** Notions used in the statements *)

(** The node the store of the add-on holds under [key], if any (no store,
    no node). *)
Definition StoredSetting (key : string) (a : CAddon) : option CSetting :=
  m_settings a ≫= AddonSettings.GetSetting key.

(** The world after further calls were made and nothing was written. *)
Definition only_events (w w' : World) : Prop :=
  files w' = files w ∧ directories w' = directories w ∧
  ∃ evs, events w' = events w ++ evs.

(** The add-on once its store exists. *)
Definition ensure (a : CAddon) : CAddon :=
  with_settings (Some (default AddonSettings.make_shared (m_settings a))) a.

(** What a nested [GetSettings] does wherever [LoadSettings] and
    [LoadUserSettings] call it: there is a store already, or the failure
    flag is set, so that the nested load returns at once. *)
Definition good (G : AddonInstanceId → M ()) : Prop :=
  ∀ id a w, is_Some (m_settings a) ∨ m_loadSettingsFailed a = true →
    G id a w = Ok () (ensure a) w.

End Facade.


(** ** Notions for the further properties *)

Section Traces.
Context `{Externals}.

(** The world after one more call was made. *)
Definition add_event (e : Event) (w : World) : World :=
  {| files := files w; directories := directories w; events := events w ++ [e] |}.

(** The store an attempt of [LoadSettings] hands to [Initialize]: an
    initialized one was uninitialized first (the attempt was forced), and a
    missing one was created. *)
Definition attempt_store (a : CAddon) : CAddonSettings :=
  match m_settings a with
  | Some s => if AddonSettings.IsInitialized s then AddonSettings.Uninitialize s else s
  | None => AddonSettings.make_shared
  end.

(** The add-on when an attempt of [LoadSettings] found no usable settings
    definition: the failure is remembered, and an initialized store was
    uninitialized. *)
Definition after_failed_read (a : CAddon) : CAddon :=
  with_loadSettingsFailed true
    (with_settings
       (match m_settings a with
        | Some s => Some (if AddonSettings.IsInitialized s
                          then AddonSettings.Uninitialize s else s)
        | None => None
        end) a).

End Traces.

(** ** A stand-in for the collaborators *)

(** Concrete collaborators, enough to run the façade on examples: a
    document is a bare root-less file, a list of setting definitions or a
    list of (key, text) values. *)
Module Sample.

Inductive Doc :=
| NoRoot
| Definitions (defs : list (string * CSetting))
| Values (vals : list (string * string)).

(** The part of a path up to and including its last slash, if it has one. *)
Fixpoint up_to_last_slash (path : string) : option string :=
  match path with
  | EmptyString => None
  | String c rest =>
      match up_to_last_slash rest with
      | Some d => Some (String c d)
      | None => if Ascii.eqb c (Ascii.ascii_of_nat 47) then Some "/" else None
      end
  end.

Definition bool_to_string (b : bool) : string := if b then "true" else "false".

(** Only the text of booleans and strings is converted; integers and numbers
    print as a fixed text and take no text. *)
Definition to_string (s : CSetting) : string :=
  match s with
  | CSettingBool _ v => bool_to_string v
  | CSettingInt _ _ => "<int>"
  | CSettingNumber _ _ => "<number>"
  | CSettingString _ v => v
  end.

Definition from_string (text : string) (s : CSetting) : option CSetting :=
  match s with
  | CSettingBool d _ =>
      if bool_decide (text = "true") then Some (CSettingBool d true)
      else if bool_decide (text = "false") then Some (CSettingBool d false)
      else None
  | CSettingString d _ => Some (CSettingString d text)
  | _ => None
  end.

(** [builds] says whether TinyXML manages to build the document that
    [CAddonSettings::Save] fills. *)
Definition externals (builds : bool) : Externals := {|
  CXBMCTinyXML := Doc;
  RootElement doc := match doc with NoRoot => false | _ => true end;
  AddFileToFolder folder file := folder +:+ "/" +:+ file;
  GetDirectory path := default "" (up_to_last_slash path);
  ToString := to_string;
  FromString := from_string;
  ReadDefinitions doc := match doc with Definitions defs => Some defs | _ => None end;
  ReadValues doc := match doc with Values vals => Some vals | _ => None end;
  WriteValues vals := if builds then Some (Values vals) else None;
  HAS_PYTHON := true
|}.

Definition info : AddonInfo :=
  {| ID := "plugin.demo"; Path := "/addons/plugin.demo";
     ProfilePath := "/userdata/addon_data/plugin.demo" |}.

Definition definitionFile : string := "/addons/plugin.demo/resources/settings.xml".
Definition userFile : string := "/userdata/addon_data/plugin.demo/settings.xml".

(** A schema with one boolean setting "k", true by default. *)
Definition schema : Doc := Definitions [("k", CSettingBool true true)].

(** The collaborators of the examples, with a TinyXML that builds what it is
    asked to. *)
Definition collaborators : Externals := externals true.
#[local] Existing Instance collaborators.

Definition world_with (fs : list (string * XmlFile)) : World :=
  {| files := list_to_map fs; directories := ∅; events := [] |}.

(** Nothing on disk; only the schema; the schema and a user-values file
    that does not parse. *)
Definition empty_world : World := world_with [].
Definition schema_world : World := world_with [(definitionFile, WellFormed schema)].
Definition broken_user_world : World :=
  world_with [(definitionFile, WellFormed schema); (userFile, Malformed 3 "Error reading end tag.")].

(** The world once the missing schema was looked for. *)
Definition probed_world : World :=
  {| files := ∅; directories := ∅;
     events := [TinyXML_LoadFile definitionFile; CFile_Exists definitionFile] |}.

Definition fresh : CAddon := CAddon_new info.

(** The add-on once a first load found no schema. *)
Definition failed_addon : CAddon := with_loadSettingsFailed true fresh.

(** The add-on with a store in a given state holding "k" with a given
    value: as the schema initializes it, after an update of "k" on the
    initialized store, and loaded with user settings. *)
Definition store (state : Lifecycle) (k : bool) : CAddonSettings :=
  {| AddonSettings.m_lifecycle := state;
     AddonSettings.m_table := {["k" := CSettingBool true k]} |}.

Definition initialized_addon : CAddon :=
  with_settings (Some (store AddonSettings.Initialized true)) fresh.
Definition edited_addon : CAddon :=
  with_settings (Some (store AddonSettings.Initialized false)) fresh.
Definition configured_addon : CAddon :=
  with_hasUserSettings true (with_settings (Some (store AddonSettings.Loaded false)) fresh).

(** Collaborators whose TinyXML fails to build a document, and a blank
    world for them. *)
Definition unbuildable : Externals := externals false.
Definition blank_world : @World unbuildable :=
  {| files := ∅; directories := ∅; events := [] |}.

(** A values document that sets "k" to false, one for a key the schema
    does not have, and the add-on on a schema that defines no setting. *)
Definition values_false : Doc := Values [("k", "false")].
Definition other_values : Doc := Values [("other", "x")].
Definition empty_schema_addon : CAddon :=
  with_settings
    (Some {| AddonSettings.m_lifecycle := AddonSettings.Initialized;
             AddonSettings.m_table := ∅ |}) fresh.

(** The add-on after its first load of the schema with no user values, and
    the world then; the world after a first load that met the user-values
    file that does not parse. *)
Definition loaded_addon : CAddon :=
  with_settings (Some (store AddonSettings.Loaded true)) fresh.
Definition after_first_load : World :=
  {| files := files schema_world; directories := ∅;
     events := [TinyXML_LoadFile definitionFile; CFile_Exists userFile] |}.
Definition after_broken_load : World :=
  {| files := files broken_user_world; directories := ∅;
     events := [TinyXML_LoadFile definitionFile; CFile_Exists userFile;
                TinyXML_LoadFile userFile;
                CLog_Log "plugin.demo" (failed_to_load_addon_settings_from userFile)] |}.

(** The add-on as the schema initializes it, once the string "newkey" was
    defined at run time. *)
Definition extended_addon : CAddon :=
  with_settings
    (Some {| AddonSettings.m_lifecycle := AddonSettings.Initialized;
             AddonSettings.m_table :=
               <["newkey" := CSettingString "v" "v"]> {["k" := CSettingBool true true]} |})
    fresh.

(** The world after the add-on with user settings was saved next to the
    schema. *)
Definition saved_world : World :=
  {| files := <[userFile := WellFormed values_false]> (files schema_world);
     directories := {["/userdata/addon_data/plugin.demo/"]};
     events := [CDirectory_Exists "/userdata/addon_data/plugin.demo/";
                CDirectory_Create "/userdata/addon_data/plugin.demo/";
                CDirectory_Exists "/userdata/addon_data/plugin.demo/";
                TinyXML_SaveFile userFile;
                AddonMgr_ReloadSettings "plugin.demo" ADDON_SETTINGS_ID;
                XBPython_OnSettingsChanged "plugin.demo"] |}.

(** The result of a run, told apart from a crash. *)
Definition value_of {A} (r : Result A) : option A :=
  match r with Ok x _ _ => Some x | Crash _ => None end.
Definition addon_of {A} (r : Result A) : option CAddon :=
  match r with Ok _ a _ => Some a | Crash _ => None end.
Definition world_of {A} (r : Result A) : option World :=
  match r with Ok _ _ w => Some w | Crash _ => None end.

End Sample.

(** ** Running the façade *)

Section Runs.
Context `{Externals}.
Implicit Types (a : CAddon) (w : World) (id : AddonInstanceId) (s : CAddonSettings).

(** Unfolds the plumbing of [M] in a run. *)
Ltac run :=
  cbv [mbind mret M_bind M_ret this world set_world set_settings
       set_loadSettingsFailed set_hasUserSettings emit when crash arrow arrow_const
       Log LoadFile SaveFile Exists DirectoryExists DirectoryCreate DefinitionFile];
  cbn [m_settings m_loadSettingsFailed m_hasUserSettings m_addonInfo m_userSettingsPath
       with_settings with_loadSettingsFailed with_hasUserSettings
       SettingsInitialized SettingsLoaded
       files directories events fst snd negb andb orb default].

Lemma LoadSettings_fuel_failed n bForce loadUserSettings id a w :
  m_loadSettingsFailed a = true →
  bForce = true ∨ SettingsInitialized id a = false →
  LoadSettings_fuel (S n) bForce loadUserSettings id a w = Ok false a w.
Proof.
  intros F [-> | E]; cbn [LoadSettings_fuel]; unfold LoadSettings_body; run.
  - rewrite andb_false_r. by rewrite F.
  - rewrite E. by rewrite F.
Qed.

Lemma good_Some G id a w s :
  good G → m_settings a = Some s → G id a w = Ok () a w.
Proof.
  intros HG E. rewrite HG by eauto. unfold ensure. rewrite E. by destruct a; simplify_eq/=.
Qed.

Lemma GetSettings_with_good n : good (GetSettings_with (LoadSettings_fuel (S n))).
Proof.
  intros id [info path [s|] failed hus] w [[s' E] | F]; simplify_eq/=;
    unfold GetSettings_with; run; done.
Qed.

(** Symbolic execution: unfold, use what is known of the nested
    [GetSettings] and of the conditions, and repeat. *)
Ltac exec :=
  repeat (run;
    match goal with
    | HG : good ?G |- context [?G ?id ?a ?w] => rewrite (good_Some G id a w _ HG eq_refl)
    | HG : good ?G |- context [?G ?id ?a ?w] =>
        rewrite (HG id a w (or_intror eq_refl)); unfold ensure
    | E : ?x = true |- context [?x] => rewrite E
    | E : ?x = false |- context [?x] => rewrite E
    end); run.

Lemma Initialize_false doc s : (AddonSettings.Initialize doc s).1 = false → (AddonSettings.Initialize doc s).2 = s.
Proof. unfold AddonSettings.Initialize. by repeat case_match. Qed.
Lemma Initialize_true doc s : (AddonSettings.Initialize doc s).1 = true → AddonSettings.IsInitialized (AddonSettings.Initialize doc s).2 = true.
Proof. unfold AddonSettings.Initialize. by repeat case_match. Qed.
Lemma Load_false doc s : (AddonSettings.Load doc s).1 = false → (AddonSettings.Load doc s).2 = s.
Proof. unfold AddonSettings.Load. by repeat case_match. Qed.
Lemma Load_IsInitialized doc s : AddonSettings.IsInitialized s = true → AddonSettings.IsInitialized (AddonSettings.Load doc s).2 = true.
Proof. unfold AddonSettings.Load. by repeat case_match. Qed.
Lemma SetDefaults_IsInitialized s : AddonSettings.IsInitialized (AddonSettings.SetDefaults s) = AddonSettings.IsInitialized s.
Proof. done. Qed.

Lemma SettingsFromXML_with_initialized G doc ld id a w :
  good G → SettingsInitialized id a = true →
  ∃ r a' w', SettingsFromXML_with G doc ld id a w = Ok r a' w' ∧
    SettingsInitialized id a' = true ∧
    m_loadSettingsFailed a' = m_loadSettingsFailed a ∧
    (r = false → m_hasUserSettings a' = m_hasUserSettings a).
Proof.
  intros HG E. destruct a as [info path [s|] failed hus]; [|done].
  unfold SettingsFromXML_with. cbn in E.
  destruct (RootElement doc); [|by eexists _, _, _]. exec.
  destruct ld; exec.
  - destruct (AddonSettings.Load doc _).1 eqn:EL; exec; eexists _, _, _; split_and!; try done; cbn.
    + by apply Load_IsInitialized.
    + by apply Load_IsInitialized.
  - destruct (AddonSettings.Load doc _).1 eqn:EL; exec; eexists _, _, _; split_and!; try done; cbn.
    + by apply Load_IsInitialized.
    + by apply Load_IsInitialized.
Qed.

Lemma LoadUserSettings_with_initialized G id a w :
  good G → SettingsInitialized id a = true →
  ∃ r a' w', LoadUserSettings_with G id a w = Ok r a' w' ∧
    SettingsInitialized id a' = true ∧
    m_loadSettingsFailed a' = m_loadSettingsFailed a ∧
    (r = false → m_hasUserSettings a' = false).
Proof.
  intros HG E. destruct a as [info path [s|] failed hus]; [|done].
  unfold LoadUserSettings_with. cbn in E. exec.
  case_bool_decide; exec.
  - destruct (files w !! path) as [[row desc|doc]|] eqn:EF; exec.
    + by eexists _, _, _.
    + match goal with
      | |- context [SettingsFromXML_with G doc false id ?a ?w] =>
          destruct (SettingsFromXML_with_initialized G doc false id a w HG)
            as (r & a' & w' & -> & ? & ? & ?); [done|]
      end.
      by eexists _, _, _.
    + by destruct H0 as [??].
  - by eexists _, _, _.
Qed.

Local Arguments AddonSettings.Initialize : simpl never.
Local Arguments AddonSettings.Load : simpl never.
Local Arguments AddonSettings.Uninitialize : simpl never.

Lemma Uninitialize_IsInitialized s :
  AddonSettings.IsInitialized (AddonSettings.Uninitialize s) = false.
Proof. done. Qed.

(** Closes a goal [∃ r a' w', run = Ok r a' w' ∧ ...] once the run is a value. *)
Ltac fin := eexists _, _, _; split_and!; [reflexivity|..]; cbn; intros; simplify_eq; try done.

Lemma LoadSettings_body_spec G bForce loadUserSettings id a w :
  good G →
  ∃ r a' w', LoadSettings_body G bForce loadUserSettings id a w = Ok r a' w' ∧
    (r = true → SettingsInitialized id a' = true) ∧
    (r = false → m_loadSettingsFailed a' = true ∧
       (m_loadSettingsFailed a = false → SettingsInitialized id a' = false)).
Proof.
  intros HG. destruct a as [info path st failed hus].
  unfold LoadSettings_body.
  destruct st as [s|]; [destruct (AddonSettings.IsInitialized s) eqn:E|]; destruct bForce, failed; exec;
    try (by fin).
  all: set (file := AddFileToFolder _ "settings.xml").
  all: destruct (files w !! file) as [[row desc|doc]|] eqn:EF; exec.
  all: try (case_bool_decide; exec; by fin).
  all: try (destruct (AddonSettings.Initialize doc _).1 eqn:EI; exec).
  all: try (by fin).
  all: try (fin; by rewrite ?Initialize_false, ?Uninitialize_IsInitialized by done).
  all: destruct loadUserSettings; exec; [|by (fin; apply Initialize_true)].
  all: match goal with
       | HG : good ?G |- context [LoadUserSettings_with ?G ?id ?a ?w] =>
           destruct (LoadUserSettings_with_initialized G id a w HG)
             as (r & a' & w' & -> & ? & ? & ?); [by apply Initialize_true|]
       end.
  all: by fin.
Qed.

Lemma LoadSettings_fuel_spec n bForce loadUserSettings id a w :
  ∃ r a' w', LoadSettings_fuel (S (S n)) bForce loadUserSettings id a w = Ok r a' w' ∧
    (r = true → SettingsInitialized id a' = true) ∧
    (r = false → m_loadSettingsFailed a' = true ∧
       (m_loadSettingsFailed a = false → SettingsInitialized id a' = false)).
Proof. apply LoadSettings_body_spec, GetSettings_with_good. Qed.


Lemma SettingsFromXML_with_ext G G' doc ld id a w :
  good G → good G' → SettingsInitialized id a = true →
  SettingsFromXML_with G doc ld id a w = SettingsFromXML_with G' doc ld id a w.
Proof.
  intros HG HG' E. destruct a as [info path [s|] failed hus]; [|done].
  unfold SettingsFromXML_with. cbn in E.
  destruct (RootElement doc); [|done]. destruct ld; by exec.
Qed.

Lemma LoadUserSettings_with_ext G G' id a w :
  good G → good G' →
  LoadUserSettings_with G id a w = LoadUserSettings_with G' id a w.
Proof.
  intros HG HG'. destruct a as [info path [s|] failed hus]; [|done].
  unfold LoadUserSettings_with. run.
  destruct (AddonSettings.IsInitialized s) eqn:E; exec; [|done].
  case_bool_decide; exec; [|done].
  destruct (files w !! path) as [[row desc|doc]|]; exec; try done.
  by apply SettingsFromXML_with_ext.
Qed.

Lemma LoadSettings_body_ext G G' bForce loadUserSettings id a w :
  good G → good G' →
  LoadSettings_body G bForce loadUserSettings id a w =
  LoadSettings_body G' bForce loadUserSettings id a w.
Proof.
  intros HG HG'. destruct a as [info path st failed hus].
  unfold LoadSettings_body.
  destruct st as [s|]; [destruct (AddonSettings.IsInitialized s) eqn:E|];
    destruct bForce, failed; exec; try done.
  all: set (file := AddFileToFolder _ "settings.xml").
  all: destruct (files w !! file) as [[row desc|doc]|] eqn:EF; exec; try done.
  all: destruct (AddonSettings.Initialize doc _).1 eqn:EI; exec; try done.
  all: destruct loadUserSettings; exec; try done.
  all: by erewrite LoadUserSettings_with_ext.
Qed.

(** Two levels of nesting are all a run ever uses. *)
Lemma LoadSettings_fuel_enough n bForce loadUserSettings id a w :
  LoadSettings_fuel (S (S n)) bForce loadUserSettings id a w =
  LoadSettings_fuel 2 bForce loadUserSettings id a w.
Proof.
  exact (LoadSettings_body_ext _ _ bForce loadUserSettings id a w
           (GetSettings_with_good n) (GetSettings_with_good 0)).
Qed.

(** *** [LoadSettings] as the façade calls it *)

Lemma LoadSettings_spec bForce loadUserSettings id a w :
  ∃ r a' w', LoadSettings bForce loadUserSettings id a w = Ok r a' w' ∧
    (r = true → SettingsInitialized id a' = true) ∧
    (r = false → m_loadSettingsFailed a' = true ∧
       (m_loadSettingsFailed a = false → SettingsInitialized id a' = false)).
Proof. apply LoadSettings_fuel_spec. Qed.

Lemma LoadSettings_initialized loadUserSettings id a w :
  SettingsInitialized id a = true →
  LoadSettings false loadUserSettings id a w = Ok true a w.
Proof.
  intros E. unfold LoadSettings. cbn [LoadSettings_fuel]. unfold LoadSettings_body. run.
  by rewrite E.
Qed.

Lemma LoadSettings_failed bForce loadUserSettings id a w :
  m_loadSettingsFailed a = true →
  bForce = true ∨ SettingsInitialized id a = false →
  LoadSettings bForce loadUserSettings id a w = Ok false a w.
Proof. apply LoadSettings_fuel_failed. Qed.

(** A first attempt on an add-on without a settings definition: one read,
    one probe, no log, and the failure is remembered. *)
Lemma LoadSettings_no_definition bForce loadUserSettings id a w :
  SettingsInitialized id a = false →
  m_loadSettingsFailed a = false →
  files w !! DefinitionFile a = None →
  LoadSettings bForce loadUserSettings id a w =
    Ok false (with_loadSettingsFailed true a)
       {| files := files w; directories := directories w;
          events := (events w ++ [TinyXML_LoadFile (DefinitionFile a)])
                      ++ [CFile_Exists (DefinitionFile a)] |}.
Proof.
  intros E F EF. destruct a as [info path st failed hus]. cbn in E, F, EF. subst failed.
  unfold LoadSettings. cbn [LoadSettings_fuel]. unfold LoadSettings_body. run.
  rewrite E. run. unfold DefinitionFile in EF. cbn in EF. rewrite EF. run.
  rewrite EF. rewrite bool_decide_eq_false_2 by (by intros [??]). done.
Qed.

(** [HasSettings]: it returns, and a positive answer comes with an
    initialized store that has a node. *)
Lemma HasSettings_spec id a w :
  ∃ r a' w', HasSettings id a w = Ok r a' w' ∧
    (r = true → ∃ s, m_settings a' = Some s ∧ AddonSettings.IsInitialized s = true ∧
                     AddonSettings.HasSettings s = true) ∧
    (SettingsInitialized id a = true → a' = a ∧ w' = w).
Proof.
  destruct (LoadSettings_spec false true id a w) as (r & a' & w' & E & Ht & Hf).
  unfold HasSettings. run. rewrite E.
  assert (SettingsInitialized id a = true → r = true ∧ a' = a ∧ w' = w) as Hi.
  { intros Ei. rewrite LoadSettings_initialized in E by done. by simplify_eq. }
  destruct r; run.
  - specialize (Ht eq_refl). unfold SettingsInitialized in Ht.
    destruct (m_settings a') as [s|] eqn:Es; [|done].
    eexists _, _, _; split_and!; [done| |by intros Ei; destruct (Hi Ei) as (_ & ? & ?)].
    intros Hs. by exists s.
  - eexists _, _, _; split_and!; [done|done|by intros Ei; destruct (Hi Ei)].
Qed.

(** ** Properties of the settings handling (C1 to C10) *)

(** C1 (as amended).  An attempt of [LoadSettings] that fails (the flag was
    clear on entry, the call returned false) leaves the failure flag set and
    the store uninitialized, and from then on [LoadSettings] returns false
    without touching the add-on, the file system, the log or anything else,
    whatever the world has become: for [bForce = false] and for
    [bForce = true] alike. *)
Theorem C1_failed_load_is_sticky bForce loadUserSettings id a w a' w' :
  m_loadSettingsFailed a = false →
  LoadSettings bForce loadUserSettings id a w = Ok false a' w' →
  m_loadSettingsFailed a' = true ∧
  SettingsInitialized id a' = false ∧
  ∀ bForce2 loadUserSettings2 id2 w2,
    LoadSettings bForce2 loadUserSettings2 id2 a' w2 = Ok false a' w2.
Proof.
  intros F E.
  destruct (LoadSettings_spec bForce loadUserSettings id a w) as (r & a1 & w1 & E1 & _ & Hf).
  rewrite E in E1. simplify_eq. destruct (Hf eq_refl) as [F' I']. specialize (I' F).
  split_and!; [done..|]. intros. apply LoadSettings_failed; [done|by right].
Qed.

(** C2 (as amended).  For an add-on with no settings definition on disk
    whose store is not initialized, [HasSettings] returns false and
    [GetSetting] returns the empty string for every key; nothing is written
    and the store stays uninitialized, so the same holds for the next
    call. *)
Theorem C2_no_definition_no_settings id a w :
  files w !! DefinitionFile a = None →
  SettingsInitialized id a = false →
  (∃ a' w', HasSettings id a w = Ok false a' w' ∧
     SettingsInitialized id a' = false ∧ only_events w w') ∧
  (∀ key, ∃ a' w', GetSetting key id a w = Ok "" a' w' ∧
     SettingsInitialized id a' = false ∧ only_events w w').
Proof.
  intros EF E.
  assert (∃ a' w', LoadSettings false true id a w = Ok false a' w' ∧
            SettingsInitialized id a' = false ∧ only_events w w') as (a' & w' & EL & E' & Hw).
  { destruct (m_loadSettingsFailed a) eqn:F.
    - rewrite LoadSettings_failed by (done || by right).
      eexists _, _; split_and!; [done..|]. repeat split. exists []. by rewrite app_nil_r.
    - rewrite LoadSettings_no_definition by done.
      eexists _, _; split_and!; [done..|]. repeat split. cbn.
      eexists [_; _]. by rewrite <-app_assoc. }
  split.
  - exists a', w'. unfold HasSettings. run. by rewrite EL.
  - intros key. unfold GetSetting. case_bool_decide; run.
    + exists a, w. split_and!; [done..|]. repeat split. exists []. by rewrite app_nil_r.
    + exists a', w'. by rewrite EL.
Qed.

(** What [Initialize] builds is at its defaults. *)
Lemma Initialize_IsDefault doc s key node :
  (AddonSettings.Initialize doc s).1 = true →
  AddonSettings.GetSetting key (AddonSettings.Initialize doc s).2 = Some node →
  IsDefault node.
Proof.
  unfold AddonSettings.Initialize, AddonSettings.GetSetting.
  destruct (AddonSettings.IsInitialized s); [done|].
  destruct (ReadDefinitions doc) as [defs|]; [|done]. cbn. intros _.
  rewrite lookup_fmap. destruct (list_to_map defs !! key) as [node0|]; [|done].
  cbn. intros [= <-]. by destruct node0.
Qed.

Lemma GetSettings_good : good GetSettings.
Proof. apply GetSettings_with_good. Qed.

Lemma only_events_refl w : only_events w w.
Proof. repeat split. exists []. by rewrite app_nil_r. Qed.

Lemma HasUserSettings_initialized id a w :
  SettingsInitialized id a = true →
  HasUserSettings id a w = Ok (SettingsLoaded id a && m_hasUserSettings a) a w.
Proof. intros E. unfold HasUserSettings. run. by rewrite LoadSettings_initialized. Qed.

(** C3 (as amended).  On an initialized store, with no user-values file on
    disk, [LoadUserSettings] returns true and marks the store Loaded; it
    leaves every setting as it was, so that each is at its schema default
    if it was before the call (as it is right after [Initialize], see
    [Initialize_IsDefault]); nothing is written, and [HasUserSettings]
    returns false afterwards. *)
Theorem C3_no_user_file_marks_loaded id a w :
  SettingsInitialized id a = true →
  files w !! m_userSettingsPath a = None →
  ∃ a' w', LoadUserSettings id a w = Ok true a' w' ∧
    SettingsLoaded id a' = true ∧
    (∀ key, StoredSetting key a' = StoredSetting key a) ∧
    ((∀ key node, StoredSetting key a = Some node → IsDefault node) →
     ∀ key node, StoredSetting key a' = Some node → IsDefault node) ∧
    only_events w w' ∧
    HasUserSettings id a' w' = Ok false a' w'.
Proof.
  intros E EF. pose proof GetSettings_good as HG.
  destruct a as [info path [s|] failed hus]; [|done]. cbn in E, EF.
  unfold LoadUserSettings, LoadUserSettings_with. exec. rewrite EF.
  rewrite bool_decide_eq_false_2 by (by intros [??]). exec.
  eexists _, _; split_and!; [reflexivity|done|done| | |].
  - intros Hd key node. apply Hd.
  - repeat split. by eexists [_].
  - by rewrite HasUserSettings_initialized.
Qed.

(** C4.  On an initialized store, with a user-values file that does not
    parse, [LoadUserSettings] logs the failure and returns false; the store
    is the one it was: [SettingsLoaded] keeps its answer (false stays
    false, the store stays at Initialized) and every setting keeps its
    value (a setting at its schema default stays there); nothing is
    written. *)
Theorem C4_malformed_user_file_changes_nothing id a w row desc :
  SettingsInitialized id a = true →
  files w !! m_userSettingsPath a = Some (Malformed row desc) →
  ∃ a' w', LoadUserSettings id a w = Ok false a' w' ∧
    m_settings a' = m_settings a ∧
    SettingsInitialized id a' = true ∧
    (SettingsLoaded id a = false → SettingsLoaded id a' = false) ∧
    (∀ key, StoredSetting key a' = StoredSetting key a) ∧
    (∀ key node, StoredSetting key a = Some node → IsDefault node →
       StoredSetting key a' = Some node) ∧
    only_events w w' ∧
    CLog_Log (ID (m_addonInfo a))
      (failed_to_load_addon_settings_from (m_userSettingsPath a)) ∈ events w'.
Proof.
  intros E EF. pose proof GetSettings_good as HG.
  destruct a as [info path [s|] failed hus]; [|done]. cbn in E, EF.
  unfold LoadUserSettings, LoadUserSettings_with. exec. rewrite EF.
  rewrite bool_decide_eq_true_2 by eauto. exec. rewrite EF. exec.
  eexists _, _; split_and!; [reflexivity|done..| |].
  - repeat split. cbn. eexists [_; _; _]. by rewrite <-!app_assoc.
  - cbn. set_solver.
Qed.

(** C10.  [LoadUserSettings] clears [m_hasUserSettings] once it is past the
    check that the store is initialized, before any file is looked at.  So
    on an initialized store a user-values file that does not parse makes it
    return false, and after any call that returns false the flag is clear
    and [HasUserSettings] returns false, whatever the flag was before. *)
Theorem C10_failed_user_load_clears_flag id a w :
  SettingsInitialized id a = true →
  (∀ row desc, files w !! m_userSettingsPath a = Some (Malformed row desc) →
     ∃ w', LoadUserSettings id a w = Ok false (with_hasUserSettings false a) w') ∧
  (∀ a' w', LoadUserSettings id a w = Ok false a' w' →
     m_hasUserSettings a' = false ∧ HasUserSettings id a' w' = Ok false a' w').
Proof.
  intros E. split.
  - intros row desc EF. pose proof GetSettings_good as HG.
    destruct a as [info path [s|] failed hus]; [|done]. cbn in E, EF.
    unfold LoadUserSettings, LoadUserSettings_with. exec. rewrite EF.
    rewrite bool_decide_eq_true_2 by eauto. exec. rewrite EF. exec. by eexists.
  - intros a' w' EL.
    destruct (LoadUserSettings_with_initialized GetSettings id a w GetSettings_good E)
      as (r & a1 & w1 & E1 & Ei & _ & Hh).
    unfold LoadUserSettings in EL. rewrite EL in E1. simplify_eq.
    specialize (Hh eq_refl). split; [done|].
    rewrite HasUserSettings_initialized by done. by rewrite Hh, andb_false_r.
Qed.

(** The casts of the four instantiations succeed on a node of their kind. *)
Lemma IsTSetting_GetValue T node :
  IsTSetting T → GetType node = Type_ T → is_Some (GetValue T node).
Proof. intros [->|[->|[->| ->]]]; destruct node; by eauto. Qed.

Lemma IsTSetting_SetValue T value node :
  IsTSetting T → GetType node = Type_ T → is_Some (SetValue T value node).
Proof. intros [->|[->|[->| ->]]]; destruct node; by eauto. Qed.

Lemma IsTSetting_Create T value :
  IsTSetting T →
  GetType (Create T value) = Type_ T ∧
  GetValue T (Create T value) = Some value ∧
  SetValue T value (Create T value) = Some (Create T value).
Proof. by intros [->|[->|[->| ->]]]. Qed.

(** C5.  A typed getter [GetSettingValue<T>], for each of the four kinds,
    returns, and whenever it returns false the caller's variable holds what
    it held.  It returns false when the store it consulted (the store of the
    call's final state, which is the initial one if that was initialized)
    has no node under the key, and when it has a node of another kind. *)
Theorem C5_typed_get_mismatch T id key value a w :
  IsTSetting T →
  ∃ ok value' a' w', GetSettingValue T id key value a w = Ok (ok, value') a' w' ∧
    (ok = false → value' = value) ∧
    (StoredSetting key a' = None → ok = false ∧ value' = value) ∧
    (∀ node, StoredSetting key a' = Some node → GetType node ≠ Type_ T →
       ok = false ∧ value' = value) ∧
    (SettingsInitialized id a = true → a' = a ∧ w' = w).
Proof.
  intros HT. unfold GetSettingValue. case_bool_decide; run.
  { by eexists _, _, _, _. }
  destruct (HasSettings_spec id a w) as (r & a' & w' & -> & Ht & Hi).
  destruct r; run; [|by eexists _, _, _, _].
  destruct (Ht eq_refl) as (s & Es & _ & _).
  rewrite (good_Some _ _ _ _ _ GetSettings_good Es). run. rewrite Es.
  assert (StoredSetting key a' = AddonSettings.GetSetting key s) as Est.
  { unfold StoredSetting. by rewrite Es. }
  destruct (AddonSettings.GetSetting key s) as [node|] eqn:En.
  2:{ eexists _, _, _, _; split_and!; [reflexivity|done..]. }
  case_bool_decide as Hty.
  { eexists _, _, _, _; split_and!; [reflexivity|done..]. }
  destruct (IsTSetting_GetValue T node HT Hty) as [v ->].
  eexists _, _, _, _; split_and!; [reflexivity|done| | |done].
  - by rewrite Est.
  - rewrite Est. by intros ? [= <-] ?.
Qed.

(** C6 (as amended).  A typed update [UpdateSettingValue<T>], for each of
    the four kinds: with an empty key, or when [HasSettings] is false, it
    returns false and goes no further; otherwise, if the store has no node
    under the key, the key is defined with kind [T] and the value assigned,
    the other keys keeping their nodes, and the update returns true; if the
    store has a node of another kind, the update returns false and changes
    nothing; if it has a node of kind [T], the value is assigned. *)
Theorem C6_typed_update T id key value a w :
  IsTSetting T →
  (key = "" → UpdateSettingValue T id key value a w = Ok false a w) ∧
  (key ≠ "" → ∀ a1 w1, HasSettings id a w = Ok false a1 w1 →
     UpdateSettingValue T id key value a w = Ok false a1 w1) ∧
  (key ≠ "" → ∀ a1 w1, HasSettings id a w = Ok true a1 w1 →
     match StoredSetting key a1 with
     | None =>
         ∃ a2, UpdateSettingValue T id key value a w = Ok true a2 w1 ∧
           StoredSetting key a2 = Some (Create T value) ∧
           GetType (Create T value) = Type_ T ∧
           GetValue T (Create T value) = Some value ∧
           ∀ key', key' ≠ key → StoredSetting key' a2 = StoredSetting key' a1
     | Some node =>
         if bool_decide (GetType node = Type_ T) then
           ∃ a2 node', UpdateSettingValue T id key value a w = Ok true a2 w1 ∧
             SetValue T value node = Some node' ∧
             StoredSetting key a2 = Some node' ∧
             ∀ key', key' ≠ key → StoredSetting key' a2 = StoredSetting key' a1
         else UpdateSettingValue T id key value a w = Ok false a1 w1
     end).
Proof.
  intros HT. unfold UpdateSettingValue. split_and!.
  - intros ->. by rewrite bool_decide_eq_true_2.
  - intros Hk a1 w1 EH. rewrite bool_decide_eq_false_2 by done. run. by rewrite EH.
  - intros Hk a1 w1 EH. rewrite bool_decide_eq_false_2 by done. run. rewrite EH. run.
    destruct (HasSettings_spec id a w) as (r & a' & w' & EH' & Ht & _).
    rewrite EH in EH'. simplify_eq. destruct (Ht eq_refl) as (s & Es & _ & _).
    rewrite (good_Some _ _ _ _ _ GetSettings_good Es). run. rewrite Es.
    unfold StoredSetting at 1. rewrite Es. cbn [mbind option_bind].
    unfold AddonSettings.GetSetting.
    destruct (AddonSettings.m_table s !! key) as [node|] eqn:En; run.
    + case_bool_decide as Hty.
      * rewrite bool_decide_eq_false_2 by naive_solver.
        destruct (IsTSetting_SetValue T value node HT Hty) as [node' En'].
        rewrite En'. run. rewrite Es. eexists _, node'. split_and!; [done..| |].
        -- unfold StoredSetting, AddonSettings.GetSetting. cbn. by rewrite lookup_insert_eq.
        -- intros key' Hne. unfold StoredSetting, AddonSettings.GetSetting. cbn.
           rewrite Es. cbn. by rewrite lookup_insert_ne.
      * by rewrite bool_decide_eq_true_2.
    + rewrite (good_Some _ _ _ _ _ GetSettings_good Es). run. rewrite Es.
      unfold AddonSettings.AddSetting. rewrite bool_decide_eq_false_2 by done.
      rewrite En. run.
      destruct (IsTSetting_Create T value HT) as (Hty & Hget & Hset).
      rewrite bool_decide_eq_false_2 by naive_solver. rewrite Hset. run.
      eexists. split_and!; [done| |done..|].
      * unfold StoredSetting, AddonSettings.GetSetting. cbn. by rewrite lookup_insert_eq.
      * intros key' Hne. unfold StoredSetting, AddonSettings.GetSetting. cbn.
        rewrite Es. cbn. by rewrite !lookup_insert_ne.
Qed.

(** C7.  [GetSetting] returns the empty string for the empty key, without
    loading anything, and when [LoadSettings(false, true)] fails; otherwise
    it returns the text of the node stored under the key, or the empty
    string if the store has none. *)
Theorem C7_GetSetting key id a w :
  (key = "" → GetSetting key id a w = Ok "" a w) ∧
  (key ≠ "" →
     ∃ ok a' w', LoadSettings false true id a w = Ok ok a' w' ∧
       GetSetting key id a w =
         Ok (if ok then match StoredSetting key a' with
                        | Some setting => ToString setting
                        | None => ""
                        end
             else "") a' w').
Proof.
  unfold GetSetting. split.
  - intros ->. by rewrite bool_decide_eq_true_2.
  - intros Hk. rewrite bool_decide_eq_false_2 by done.
    destruct (LoadSettings_spec false true id a w) as (r & a' & w' & E & Ht & _).
    exists r, a', w'. split; [done|]. run. rewrite E. destruct r; run; [|done].
    specialize (Ht eq_refl). unfold SettingsInitialized in Ht. unfold StoredSetting.
    destruct (m_settings a') as [s|]; [|done]. cbn.
    by destruct (AddonSettings.GetSetting key s).
Qed.

Lemma IsLoaded_IsInitialized s :
  AddonSettings.IsLoaded s = true → AddonSettings.IsInitialized s = true.
Proof. unfold AddonSettings.IsLoaded, AddonSettings.IsInitialized. by case_match. Qed.

(** C8.  [SaveSettings] on a loaded store whose serialization fails
    ([CAddonSettings::Save] returns false): no file is written, yet
    [m_hasUserSettings] becomes true, the add-on manager is told to reload
    the settings of this add-on and instance and, in a build with
    [HAS_PYTHON], the Python runtime is told that they changed. *)
Theorem C8_save_failure_still_notifies id a w s :
  m_settings a = Some s →
  AddonSettings.IsLoaded s = true →
  AddonSettings.Save s = None →
  ∃ w' evs, SaveSettings id a w = Ok () (with_hasUserSettings true a) w' ∧
    files w' = files w ∧
    events w' = events w ++ evs ∧
    (∀ path, TinyXML_SaveFile path ∉ evs) ∧
    AddonMgr_ReloadSettings (ID (m_addonInfo a)) id ∈ evs ∧
    (HAS_PYTHON = true → XBPython_OnSettingsChanged (ID (m_addonInfo a)) ∈ evs).
Proof.
  intros Es El ES. pose proof (IsLoaded_IsInitialized s El) as Ei.
  destruct a as [info path st failed hus]. cbn in Es. subst st.
  unfold SaveSettings, HasSettingsToSave, SettingsToXML. exec.
  do 2 (case_bool_decide; exec); rewrite ES; exec.
  all: destruct HAS_PYTHON; exec.
  all: eexists _, _; split_and!; [reflexivity|done| |..]; cbn.
  all: try (rewrite <-?app_assoc; cbn; reflexivity).
  all: try (intros p Hp; repeat (apply elem_of_cons in Hp as [?|Hp]; [done|]);
            by apply elem_of_nil in Hp).
  all: try (by intros [=]); try (intros _); rewrite !elem_of_cons; by eauto 10.
Qed.

(** C9.  [ResetSettings] drops the store and nothing else: afterwards
    [SettingsInitialized] and [SettingsLoaded] are false and the failure
    flag is what it was; if it was set, [LoadSettings] with
    [bForce = false] still returns false, in any world, leaving the add-on
    and the world as they are (no read of the settings definition). *)
Theorem C9_reset_keeps_failure_flag id a w :
  ∃ a', ResetSettings id a w = Ok () a' w ∧
    SettingsInitialized id a' = false ∧
    SettingsLoaded id a' = false ∧
    m_loadSettingsFailed a' = m_loadSettingsFailed a ∧
    (m_loadSettingsFailed a = true →
     ∀ loadUserSettings w2, LoadSettings false loadUserSettings id a' w2 = Ok false a' w2).
Proof.
  exists (with_settings None a). split_and!; [done..|].
  intros F lu w2. apply LoadSettings_failed; [done|by right].
Qed.


(** ** Runs in full *)

Lemma only_events_add_event e w : only_events w (add_event e w).
Proof. repeat split. by exists [e]. Qed.

Lemma files_add_event e w : files (add_event e w) = files w.
Proof. done. Qed.

Lemma only_events_trans w1 w2 w3 :
  only_events w1 w2 → only_events w2 w3 → only_events w1 w3.
Proof.
  intros (F1 & D1 & e1 & E1) (F2 & D2 & e2 & E2). split_and!; [congruence..|].
  exists (e1 ++ e2). by rewrite E2, E1, app_assoc.
Qed.

(** [SettingsFromXML] on an initialized store, step by step. *)
Lemma SettingsFromXML_initialized_eq doc loadDefaults id a w s :
  m_settings a = Some s → AddonSettings.IsInitialized s = true →
  SettingsFromXML doc loadDefaults id a w =
    if negb (RootElement doc) then Ok false a w
    else
      let r := AddonSettings.Load doc
                 (if loadDefaults then AddonSettings.SetDefaults s else s) in
      if r.1 then Ok true (with_hasUserSettings true (with_settings (Some r.2) a)) w
      else Ok false (with_settings (Some r.2) a)
             (add_event (CLog_Log (ID (m_addonInfo a)) failed_to_load_user_settings) w).
Proof.
  intros Es E. pose proof GetSettings_good as HG.
  destruct a as [info path st failed hus]. cbn in Es. subst st.
  unfold SettingsFromXML, SettingsFromXML_with.
  destruct (RootElement doc); [|done]. exec.
  destruct loadDefaults; exec; cbn zeta;
    destruct (AddonSettings.Load doc _).1 eqn:EL; by exec.
Qed.

(** [LoadUserSettings] on an initialized store, by what the user-values
    file is. *)
Lemma LoadUserSettings_initialized_eq id a w s :
  m_settings a = Some s → AddonSettings.IsInitialized s = true →
  LoadUserSettings id a w =
    let path := m_userSettingsPath a in
    let a0 := with_hasUserSettings false a in
    let w0 := add_event (CFile_Exists path) w in
    match files w !! path with
    | None => Ok true (with_settings (Some (AddonSettings.SetLoaded s)) a0) w0
    | Some (Malformed _ _) =>
        Ok false a0
          (add_event (CLog_Log (ID (m_addonInfo a)) (failed_to_load_addon_settings_from path))
             (add_event (TinyXML_LoadFile path) w0))
    | Some (WellFormed doc) =>
        SettingsFromXML doc false id a0 (add_event (TinyXML_LoadFile path) w0)
    end.
Proof.
  intros Es E. pose proof GetSettings_good as HG.
  destruct a as [info path st failed hus]. cbn in Es. subst st.
  unfold LoadUserSettings, LoadUserSettings_with. exec. cbn zeta.
  destruct (files w !! path) as [[row desc|doc]|] eqn:EF.
  - rewrite bool_decide_eq_true_2 by eauto. exec. by rewrite EF.
  - rewrite bool_decide_eq_true_2 by eauto. exec. by rewrite EF.
  - rewrite bool_decide_eq_false_2 by (by intros [??]). by exec.
Qed.

Lemma LoadSettings_body_attempt_eq G bForce loadUserSettings id a w :
  good G →
  m_loadSettingsFailed a = false →
  bForce = true ∨ SettingsInitialized id a = false →
  LoadSettings_body G bForce loadUserSettings id a w =
    let file := DefinitionFile a in
    let w1 := add_event (TinyXML_LoadFile file) w in
    match files w !! file with
    | None => Ok false (after_failed_read a) (add_event (CFile_Exists file) w1)
    | Some (Malformed row desc) =>
        Ok false (after_failed_read a)
          (add_event (CLog_Log (ID (m_addonInfo a)) (unable_to_load file row desc))
             (add_event (CFile_Exists file) w1))
    | Some (WellFormed doc) =>
        let r := AddonSettings.Initialize doc (attempt_store a) in
        if r.1 then
          let a1 := with_loadSettingsFailed false (with_settings (Some r.2) a) in
          if loadUserSettings then
            match LoadUserSettings_with G id a1 w1 with
            | Ok _ a' w' => Ok true a' w'
            | Crash f => Crash f
            end
          else Ok true a1 w1
        else
          Ok false (with_loadSettingsFailed true (with_settings (Some r.2) a))
            (add_event (CLog_Log (ID (m_addonInfo a)) failed_to_initialize_addon_settings) w1)
    end.
Proof.
  intros HG F Hatt.
  destruct a as [info path st failed hus]. cbn in F. subst failed.
  unfold LoadSettings_body.
  unfold attempt_store, after_failed_read, add_event. cbn zeta.
  destruct st as [s|]; [destruct (AddonSettings.IsInitialized s) eqn:E|];
    destruct bForce; destruct Hatt as [? | Hi]; try (cbn in Hi; congruence);
    simplify_eq/=; exec.
  all: set (file := AddFileToFolder _ "settings.xml").
  all: destruct (files w !! file) as [[row desc|doc]|] eqn:EF; exec; rewrite ?EF.
  all: try (rewrite bool_decide_eq_true_2 by eauto; by exec).
  all: try (rewrite bool_decide_eq_false_2 by (by intros [??]); by exec).
  all: match goal with
       | |- context [AddonSettings.Initialize ?d ?s0] =>
           destruct (AddonSettings.Initialize d s0).1 eqn:EI
       end; exec; try done.
  all: destruct loadUserSettings; exec; try done.
  all: by destruct (LoadUserSettings_with _ _ _ _).
Qed.

(** An attempt of [LoadSettings] (the flag is clear, and the store is not
    initialized or the load is forced), by what the settings definition
    is. *)
Lemma LoadSettings_attempt_eq bForce loadUserSettings id a w :
  m_loadSettingsFailed a = false →
  bForce = true ∨ SettingsInitialized id a = false →
  LoadSettings bForce loadUserSettings id a w =
    let file := DefinitionFile a in
    let w1 := add_event (TinyXML_LoadFile file) w in
    match files w !! file with
    | None => Ok false (after_failed_read a) (add_event (CFile_Exists file) w1)
    | Some (Malformed row desc) =>
        Ok false (after_failed_read a)
          (add_event (CLog_Log (ID (m_addonInfo a)) (unable_to_load file row desc))
             (add_event (CFile_Exists file) w1))
    | Some (WellFormed doc) =>
        let r := AddonSettings.Initialize doc (attempt_store a) in
        if r.1 then
          let a1 := with_loadSettingsFailed false (with_settings (Some r.2) a) in
          if loadUserSettings then
            match LoadUserSettings id a1 w1 with
            | Ok _ a' w' => Ok true a' w'
            | Crash f => Crash f
            end
          else Ok true a1 w1
        else
          Ok false (with_loadSettingsFailed true (with_settings (Some r.2) a))
            (add_event (CLog_Log (ID (m_addonInfo a)) failed_to_initialize_addon_settings) w1)
    end.
Proof.
  intros F Hatt. pose proof (GetSettings_with_good 1) as HG.
  change (LoadSettings bForce loadUserSettings id a w)
    with (LoadSettings_body (GetSettings_with (LoadSettings_fuel 2))
            bForce loadUserSettings id a w).
  rewrite LoadSettings_body_attempt_eq by done. cbn zeta.
  destruct (files w !! DefinitionFile a) as [[row desc|doc]|]; [reflexivity| |reflexivity].
  destruct (AddonSettings.Initialize doc (attempt_store a)).1; [|reflexivity].
  destruct loadUserSettings; [|reflexivity].
  unfold LoadUserSettings.
  rewrite (LoadUserSettings_with_ext (GetSettings_with (LoadSettings_fuel 2)) GetSettings
             id _ _ HG GetSettings_good).
  reflexivity.
Qed.

Lemma attempt_store_uninitialized a :
  AddonSettings.IsInitialized (attempt_store a) = false.
Proof.
  unfold attempt_store. destruct (m_settings a) as [s|]; [|done].
  by destruct (AddonSettings.IsInitialized s) eqn:E.
Qed.

(** What [SettingsFromXML] and [LoadUserSettings] keep on an initialized
    store: the identity of the add-on, the files, the failure flag. *)
Lemma SettingsFromXML_initialized_frame doc loadDefaults id a w r a' w' :
  SettingsInitialized id a = true →
  SettingsFromXML doc loadDefaults id a w = Ok r a' w' →
  only_events w w' ∧ m_addonInfo a' = m_addonInfo a ∧
  m_userSettingsPath a' = m_userSettingsPath a ∧
  m_loadSettingsFailed a' = m_loadSettingsFailed a ∧
  SettingsInitialized id a' = true.
Proof.
  intros E. unfold SettingsInitialized in E.
  destruct (m_settings a) as [s|] eqn:Es; [|done].
  rewrite (SettingsFromXML_initialized_eq _ _ _ _ _ s Es E).
  destruct (RootElement doc); cbn.
  - set (s1 := if loadDefaults then _ else _).
    assert (AddonSettings.IsInitialized s1 = true) as E1 by (by destruct loadDefaults).
    pose proof (Load_IsInitialized doc s1 E1) as E2.
    destruct (AddonSettings.Load doc s1).1; intros [= <- <- <-];
      split_and!; try done; auto using only_events_refl, only_events_add_event.
  - intros [= <- <- <-]. unfold SettingsInitialized. rewrite Es.
    split_and!; auto using only_events_refl.
Qed.

Lemma LoadUserSettings_initialized_frame id a w r a' w' :
  SettingsInitialized id a = true →
  LoadUserSettings id a w = Ok r a' w' →
  only_events w w' ∧ m_addonInfo a' = m_addonInfo a ∧
  m_userSettingsPath a' = m_userSettingsPath a ∧
  m_loadSettingsFailed a' = m_loadSettingsFailed a ∧
  SettingsInitialized id a' = true.
Proof.
  intros E. pose proof E as E0. unfold SettingsInitialized in E.
  destruct (m_settings a) as [s|] eqn:Es; [|done].
  rewrite (LoadUserSettings_initialized_eq _ _ _ s Es E). cbn zeta.
  destruct (files w !! m_userSettingsPath a) as [[row desc|doc]|].
  - intros [= <- <- <-]. split_and!; try done.
    eauto using only_events_trans, only_events_add_event.
  - intros EX. apply SettingsFromXML_initialized_frame in EX as (Hw & ? & ? & ? & ?); [|done].
    split_and!; try done.
    eapply only_events_trans; [|exact Hw].
    eauto using only_events_trans, only_events_add_event.
  - intros [= <- <- <-]. split_and!; try done. apply only_events_add_event.
Qed.

(** What every run of [LoadSettings] keeps. *)
Lemma LoadSettings_frame bForce loadUserSettings id a w r a' w' :
  LoadSettings bForce loadUserSettings id a w = Ok r a' w' →
  only_events w w' ∧ m_addonInfo a' = m_addonInfo a ∧
  m_userSettingsPath a' = m_userSettingsPath a ∧
  (is_Some (m_settings a) → is_Some (m_settings a')) ∧
  (m_loadSettingsFailed a = false → m_loadSettingsFailed a' = negb r).
Proof.
  destruct (SettingsInitialized id a && negb bForce) eqn:Efast.
  { apply andb_true_iff in Efast as [Ei ->%negb_true_iff].
    rewrite LoadSettings_initialized by done. intros [= <- <- <-].
    split_and!; auto using only_events_refl. }
  assert (bForce = true ∨ SettingsInitialized id a = false) as Hatt.
  { destruct bForce; [by left|right]. by rewrite andb_true_r in Efast. }
  destruct (m_loadSettingsFailed a) eqn:F.
  { rewrite LoadSettings_failed by done. intros [= <- <- <-].
    split_and!; auto using only_events_refl. }
  rewrite LoadSettings_attempt_eq by done. cbn zeta.
  assert (is_Some (m_settings a) → is_Some (m_settings (after_failed_read a))) as Hs.
  { intros [s Es]. unfold after_failed_read. rewrite Es. cbn. eauto. }
  destruct (files w !! DefinitionFile a) as [[row desc|doc]|].
  - intros [= <- <- <-]. split_and!; try done.
    eauto using only_events_trans, only_events_add_event.
  - pose proof (Initialize_true doc (attempt_store a)) as Hi.
    destruct (AddonSettings.Initialize doc (attempt_store a)).1.
    + destruct loadUserSettings.
      * destruct (LoadUserSettings _ _ _) as [r1 a1 w1|] eqn:EL; [|done].
        intros [= <- <- <-].
        apply LoadUserSettings_initialized_frame in EL as (Hw & ? & ? & ? & Hi');
          [|by apply Hi].
        split_and!; try done.
        -- eapply only_events_trans; [apply only_events_add_event|exact Hw].
        -- intros _. unfold SettingsInitialized in Hi'. by destruct (m_settings a1).
      * intros [= <- <- <-]. split_and!; try done; eauto using only_events_add_event.
    + intros [= <- <- <-]. split_and!; try done; eauto.
      eauto using only_events_trans, only_events_add_event.
  - intros [= <- <- <-]. split_and!; try done.
    eauto using only_events_trans, only_events_add_event.
Qed.

(** ** Further properties of the settings handling (X1 and following) *)

(** X1.  Once [LoadSettings] has returned true, every later call that is
    not forced returns true at once: the add-on and the world stay as they
    are, whatever the files have become, so the schema is read once. *)
Theorem X1_loaded_once bForce loadUserSettings id a w a' w' :
  LoadSettings bForce loadUserSettings id a w = Ok true a' w' →
  ∀ loadUserSettings2 w2,
    LoadSettings false loadUserSettings2 id a' w2 = Ok true a' w2 ∧
    HasUserSettings id a' w2 = Ok (SettingsLoaded id a' && m_hasUserSettings a') a' w2.
Proof.
  intros E lu2 w2.
  destruct (LoadSettings_spec bForce loadUserSettings id a w) as (r & a1 & w1 & E1 & Ht & _).
  rewrite E in E1. simplify_eq. specialize (Ht eq_refl). split.
  - by apply LoadSettings_initialized.
  - by apply HasUserSettings_initialized.
Qed.

(** X2.  Started with the failure flag clear, [LoadSettings] leaves the
    flag set exactly when it returns false; it never drops a store that
    exists, and never changes the identity or the paths of the add-on. *)
Theorem X2_flag_tracks_result bForce loadUserSettings id a w r a' w' :
  m_loadSettingsFailed a = false →
  LoadSettings bForce loadUserSettings id a w = Ok r a' w' →
  m_loadSettingsFailed a' = negb r ∧
  (is_Some (m_settings a) → is_Some (m_settings a')) ∧
  m_addonInfo a' = m_addonInfo a ∧
  m_userSettingsPath a' = m_userSettingsPath a.
Proof.
  intros F E. apply LoadSettings_frame in E as (_ & ? & ? & ? & Hf). by split_and!; auto.
Qed.

(** X3.  Loading writes nothing: whatever [LoadSettings] (hence
    [ReloadSettings]) and [LoadUserSettings] do, the files and the
    directories are the ones they found; they only add calls to the
    trace. *)
Theorem X3_loading_writes_nothing bForce loadUserSettings id a w :
  (∀ r a' w', LoadSettings bForce loadUserSettings id a w = Ok r a' w' → only_events w w') ∧
  (∀ r a' w', ReloadSettings id a w = Ok r a' w' → only_events w w') ∧
  (∀ r a' w', LoadUserSettings id a w = Ok r a' w' → only_events w w').
Proof.
  split_and!.
  - intros r a' w' E. by apply LoadSettings_frame in E as (? & _).
  - intros r a' w' E. by apply LoadSettings_frame in E as (? & _).
  - intros r a' w' E. destruct (SettingsInitialized id a) eqn:Ei.
    + by apply LoadUserSettings_initialized_frame in E as (? & _).
    + revert E. unfold LoadUserSettings, LoadUserSettings_with. run. rewrite Ei. cbn.
      intros [= <- <- <-]. apply only_events_refl.
Qed.

(** Closes a goal [run = Ok r a' w' → only_events w w'] once the run is a
    value. *)
Ltac oe :=
  let EQ := fresh in
  intros EQ; simplify_eq;
  eauto 8 using only_events_refl, only_events_trans, only_events_add_event.

Lemma HasSettings_frame id a w r a' w' :
  HasSettings id a w = Ok r a' w' → only_events w w'.
Proof.
  unfold HasSettings. run.
  destruct (LoadSettings false true id a w) as [ok a1 w1|] eqn:E; [|done].
  apply LoadSettings_frame in E as (Hw & _).
  destruct ok; run; [|oe].
  destruct (m_settings a1); [|done]. oe.
Qed.

(** X4.  The queries and the updates work in memory: [HasSettings],
    [HasUserSettings], [GetSetting], the typed getters, [UpdateSetting] and
    the typed updates leave the files and the directories as they found
    them; only [SaveSettings] writes. *)
Theorem X4_accessors_write_nothing T id key a w :
  (∀ r a' w', HasSettings id a w = Ok r a' w' → only_events w w') ∧
  (∀ r a' w', HasUserSettings id a w = Ok r a' w' → only_events w w') ∧
  (∀ r a' w', GetSetting key id a w = Ok r a' w' → only_events w w') ∧
  (∀ value r a' w', GetSettingValue T id key value a w = Ok r a' w' → only_events w w') ∧
  (∀ value r a' w', UpdateSetting key value id a w = Ok r a' w' → only_events w w') ∧
  (∀ value r a' w', UpdateSettingValue T id key value a w = Ok r a' w' → only_events w w').
Proof.
  split_and!.
  - apply HasSettings_frame.
  - intros r a' w'. unfold HasUserSettings. run.
    destruct (LoadSettings false true id a w) as [ok a1 w1|] eqn:E; [|done].
    apply LoadSettings_frame in E as (Hw & _). destruct ok; run; oe.
  - intros r a' w'. unfold GetSetting. case_bool_decide; run; [oe|].
    destruct (LoadSettings false true id a w) as [ok a1 w1|] eqn:E; [|done].
    apply LoadSettings_frame in E as (Hw & _). destruct ok; run; [|oe].
    destruct (m_settings a1) as [s|]; [|done].
    destruct (AddonSettings.GetSetting key s); oe.
  - intros value r a' w'. unfold GetSettingValue. case_bool_decide; run; [oe|].
    destruct (HasSettings_spec id a w) as (r0 & a0 & w0 & E & Ht & _). rewrite E.
    pose proof (HasSettings_frame _ _ _ _ _ _ E) as Hw.
    destruct r0; run; [|oe].
    destruct (Ht eq_refl) as (s & Es & _ & _).
    rewrite (good_Some _ _ _ _ _ GetSettings_good Es). run. rewrite Es.
    destruct (AddonSettings.GetSetting key s) as [node|]; [|oe].
    case_bool_decide; [oe|].
    destruct (GetValue T node); [oe|done].
  - intros value r a' w'. unfold UpdateSetting. case_bool_decide; run; [oe|].
    destruct (LoadSettings_spec false true id a w) as (ok & a1 & w1 & E & Ht & _).
    rewrite E. pose proof (LoadSettings_frame _ _ _ _ _ _ _ _ E) as (Hw & _).
    destruct ok; run; [|oe].
    specialize (Ht eq_refl). unfold SettingsInitialized in Ht.
    destruct (m_settings a1) as [s|] eqn:Es; [|done].
    destruct (AddonSettings.GetSetting key s) as [node|]; run.
    + destruct (FromString value node); run; rewrite ?Es; oe.
    + rewrite Es. destruct (AddonSettings.AddSetting TSettingString key value s).1 as [node|];
        run; [|oe].
      destruct (FromString value node); run; oe.
  - intros value r a' w'. unfold UpdateSettingValue. case_bool_decide; run; [oe|].
    destruct (HasSettings_spec id a w) as (r0 & a0 & w0 & E & Ht & _). rewrite E.
    pose proof (HasSettings_frame _ _ _ _ _ _ E) as Hw.
    destruct r0; run; [|oe].
    destruct (Ht eq_refl) as (s & Es & _ & _).
    rewrite (good_Some _ _ _ _ _ GetSettings_good Es). run. rewrite Es.
    destruct (AddonSettings.GetSetting key s) as [node|]; run.
    + case_bool_decide; [oe|].
      destruct (SetValue T value node); [|done]. run. rewrite Es. oe.
    + rewrite (good_Some _ _ _ _ _ GetSettings_good Es). run. rewrite Es.
      destruct (AddonSettings.AddSetting T key value s).1 as [node|]; run; [|oe].
      case_bool_decide; [oe|].
      destruct (SetValue T value node); [|done]. run. oe.
Qed.

Lemma Initialize_attempt doc a defs :
  ReadDefinitions doc = Some defs →
  AddonSettings.Initialize doc (attempt_store a) =
    (true, {| AddonSettings.m_lifecycle := AddonSettings.Initialized;
              AddonSettings.m_table := Reset <$> list_to_map defs |}).
Proof.
  intros E. unfold AddonSettings.Initialize.
  by rewrite attempt_store_uninitialized, E.
Qed.

(** X5.  A user-values file that does not parse does not make the load
    fail: with a valid settings definition, [LoadSettings] (first load or
    forced reload) returns true, the store holds the schema at its defaults
    and is initialized but not loaded, there are no user settings, and a
    [SaveSettings] that follows does nothing at all, so the broken file is
    not overwritten. *)
Theorem X5_broken_user_file_keeps_defaults bForce id a w doc defs row desc :
  m_loadSettingsFailed a = false →
  bForce = true ∨ SettingsInitialized id a = false →
  files w !! DefinitionFile a = Some (WellFormed doc) →
  ReadDefinitions doc = Some defs →
  files w !! m_userSettingsPath a = Some (Malformed row desc) →
  ∃ a' w', LoadSettings bForce true id a w = Ok true a' w' ∧
    m_settings a' = Some {| AddonSettings.m_lifecycle := AddonSettings.Initialized;
                            AddonSettings.m_table := Reset <$> list_to_map defs |} ∧
    (∀ key node, StoredSetting key a' = Some node → IsDefault node) ∧
    SettingsLoaded id a' = false ∧
    m_hasUserSettings a' = false ∧
    m_loadSettingsFailed a' = false ∧
    only_events w w' ∧
    SaveSettings id a' w' = Ok () a' w'.
Proof.
  intros F Hatt ED Edefs EU.
  rewrite LoadSettings_attempt_eq by done. cbn zeta. rewrite ED.
  rewrite (Initialize_attempt _ _ _ Edefs). cbn [fst snd].
  erewrite LoadUserSettings_initialized_eq by (cbn; done). cbn zeta.
  destruct a as [info path st failed hus].
  cbn [m_userSettingsPath with_loadSettingsFailed with_settings with_hasUserSettings] in *.
  rewrite files_add_event, EU.
  eexists _, _. split_and!; [reflexivity|done| |done|done|done| |done].
  - intros key node. unfold StoredSetting, AddonSettings.GetSetting. cbn.
    rewrite lookup_fmap. destruct (list_to_map defs !! key) as [n|]; [|done].
    cbn. intros [= <-]. by destruct n.
  - eauto 6 using only_events_trans, only_events_add_event.
Qed.

(** X6.  With a valid settings definition and no user-values file, a load
    (the first one, or a forced reload of settings already in memory)
    returns true and leaves the store Loaded with exactly the keys of the
    schema, each at its default: values updated in memory and keys defined
    at run time are gone after [ReloadSettings]; there are no user
    settings. *)
Theorem X6_load_without_user_file bForce id a w doc defs :
  m_loadSettingsFailed a = false →
  bForce = true ∨ SettingsInitialized id a = false →
  files w !! DefinitionFile a = Some (WellFormed doc) →
  ReadDefinitions doc = Some defs →
  files w !! m_userSettingsPath a = None →
  ∃ a' w', LoadSettings bForce true id a w = Ok true a' w' ∧
    m_settings a' = Some {| AddonSettings.m_lifecycle := AddonSettings.Loaded;
                            AddonSettings.m_table := Reset <$> list_to_map defs |} ∧
    (∀ key, StoredSetting key a' = Reset <$> (list_to_map defs : gmap string CSetting) !! key) ∧
    m_hasUserSettings a' = false ∧
    m_loadSettingsFailed a' = false ∧
    HasUserSettings id a' w' = Ok false a' w'.
Proof.
  intros F Hatt ED Edefs EU.
  rewrite LoadSettings_attempt_eq by done. cbn zeta. rewrite ED.
  rewrite (Initialize_attempt _ _ _ Edefs). cbn [fst snd].
  erewrite LoadUserSettings_initialized_eq by (cbn; done). cbn zeta.
  destruct a as [info path st failed hus].
  cbn [m_userSettingsPath with_loadSettingsFailed with_settings with_hasUserSettings] in *.
  rewrite files_add_event, EU.
  eexists _, _. split_and!; [reflexivity|done| |done|done|].
  - intros key. unfold StoredSetting, AddonSettings.GetSetting. cbn. by rewrite lookup_fmap.
  - by rewrite HasUserSettings_initialized.
Qed.

(** X7.  A forced reload while the settings definition cannot be read
    (missing, or not parsable) costs the settings held in memory:
    [ReloadSettings] on an initialized store returns false, the store is
    uninitialized and holds no setting, and the failure is remembered, so
    that every later [LoadSettings], forced or not, and in any world,
    returns false and [GetSetting] returns the empty string. *)
Theorem X7_reload_without_definition id a w :
  m_loadSettingsFailed a = false →
  SettingsInitialized id a = true →
  (∀ doc, files w !! DefinitionFile a ≠ Some (WellFormed doc)) →
  ∃ a' w', ReloadSettings id a w = Ok false a' w' ∧
    SettingsInitialized id a' = false ∧
    m_loadSettingsFailed a' = true ∧
    (∀ key, StoredSetting key a' = None) ∧
    (∀ bForce loadUserSettings w2,
       LoadSettings bForce loadUserSettings id a' w2 = Ok false a' w2) ∧
    (∀ key w2, GetSetting key id a' w2 = Ok "" a' w2).
Proof.
  intros F E EF. unfold ReloadSettings.
  rewrite LoadSettings_attempt_eq by (done || by left). cbn zeta.
  unfold SettingsInitialized in E. destruct (m_settings a) as [s|] eqn:Es; [|done].
  assert (SettingsInitialized id (after_failed_read a) = false ∧
          m_loadSettingsFailed (after_failed_read a) = true ∧
          ∀ key, StoredSetting key (after_failed_read a) = None) as (Ei & Ef & Ek).
  { unfold after_failed_read, StoredSetting. rewrite Es, E. by split_and!. }
  assert (∀ bForce loadUserSettings w2,
            LoadSettings bForce loadUserSettings id (after_failed_read a) w2
              = Ok false (after_failed_read a) w2) as Hl.
  { intros. apply LoadSettings_failed; [done|by right]. }
  assert (∀ key w2, GetSetting key id (after_failed_read a) w2
                      = Ok "" (after_failed_read a) w2) as Hg.
  { intros key w2. unfold GetSetting. case_bool_decide; [done|]. run. by rewrite Hl. }
  destruct (files w !! DefinitionFile a) as [[row desc|doc]|] eqn:ED.
  - by eexists _, _.
  - by destruct (EF doc).
  - by eexists _, _.
Qed.

(** [SaveSettings] on a loaded store, by what [Save] gives. *)
Lemma SaveSettings_loaded id a w s :
  m_settings a = Some s → AddonSettings.IsLoaded s = true →
  ∃ w', SaveSettings id a w = Ok () (with_hasUserSettings true a) w' ∧
    files w' = match AddonSettings.Save s with
               | Some doc => <[m_userSettingsPath a := WellFormed doc]> (files w)
               | None => files w
               end ∧
    (∀ dir, dir ∈ directories w' ↔
       dir ∈ directories w ∨ dir = GetDirectory (m_userSettingsPath a) ∨
       dir = GetDirectory (GetDirectory (m_userSettingsPath a))) ∧
    ∃ evs, events w' = events w ++ evs ∧
      (TinyXML_SaveFile (m_userSettingsPath a) ∈ evs ↔ is_Some (AddonSettings.Save s)) ∧
      AddonMgr_ReloadSettings (ID (m_addonInfo a)) id ∈ evs ∧
      (HAS_PYTHON = true → XBPython_OnSettingsChanged (ID (m_addonInfo a)) ∈ evs).
Proof.
  intros Es El. pose proof (IsLoaded_IsInitialized s El) as Ei.
  destruct a as [info path st failed hus]. cbn in Es. subst st.
  unfold SaveSettings, HasSettingsToSave, SettingsToXML. exec.
  case_bool_decide as Hroot; exec; case_bool_decide as Haddon; exec;
    destruct (AddonSettings.Save s) as [doc|]; exec.
  all: destruct HAS_PYTHON; exec.
  all: eexists; split_and!; [reflexivity|reflexivity| |]; cbn.
  all: try (intros dir; rewrite ?elem_of_union, ?elem_of_singleton in *;
            split; [tauto | intros [?|[->| ->]]; tauto]).
  all: eexists; split_and!; [rewrite <-?app_assoc; cbn; reflexivity|..].
  all: try (by intros [=]).
  all: try (intros _); try (rewrite !elem_of_cons; by eauto 12).
  all: first
    [ by (split; [intros _; eauto | intros _; rewrite !elem_of_cons; eauto 12])
    | split; [|by intros [? [=]]]; intros Hin;
      repeat (apply elem_of_cons in Hin as [?|Hin]; [done|]); by apply elem_of_nil in Hin ].
Qed.

(** X8.  [SaveSettings] on a loaded store that serializes: the user-values
    file holds the document of the store and no other file changes, its
    directory and the parent of that directory exist afterwards (and no
    directory is removed), [m_hasUserSettings] is true, and the add-on
    manager and, with [HAS_PYTHON], the Python runtime are notified. *)
Theorem X8_save_writes_user_values id a w s doc :
  m_settings a = Some s →
  AddonSettings.IsLoaded s = true →
  AddonSettings.Save s = Some doc →
  ∃ w', SaveSettings id a w = Ok () (with_hasUserSettings true a) w' ∧
    files w' !! m_userSettingsPath a = Some (WellFormed doc) ∧
    (∀ path, path ≠ m_userSettingsPath a → files w' !! path = files w !! path) ∧
    GetDirectory (m_userSettingsPath a) ∈ directories w' ∧
    GetDirectory (GetDirectory (m_userSettingsPath a)) ∈ directories w' ∧
    (∀ dir, dir ∈ directories w → dir ∈ directories w') ∧
    ∃ evs, events w' = events w ++ evs ∧
      AddonMgr_ReloadSettings (ID (m_addonInfo a)) id ∈ evs ∧
      (HAS_PYTHON = true → XBPython_OnSettingsChanged (ID (m_addonInfo a)) ∈ evs).
Proof.
  intros Es El ES.
  destruct (SaveSettings_loaded id a w s Es El) as (w' & E & Ef & Ed & evs & Ee & _ & En & Ep).
  rewrite ES in Ef. exists w'. split_and!; [done|..].
  - by rewrite Ef, lookup_insert_eq.
  - intros path Hne. by rewrite Ef, lookup_insert_ne.
  - apply Ed. auto.
  - apply Ed. auto.
  - intros dir Hd. apply Ed. auto.
  - by exists evs.
Qed.

(** X9.  After [SaveSettings] on a loaded store, [HasUserSettings] is true
    and the directories of the user-values file exist, whether or not the
    store could be serialized; when it could not, no file has changed, so
    user settings are reported although none were written. *)
Theorem X9_user_settings_after_save id a w :
  SettingsLoaded id a = true →
  ∃ a' w', SaveSettings id a w = Ok () a' w' ∧
    HasUserSettings id a' w' = Ok true a' w' ∧
    m_settings a' = m_settings a ∧
    GetDirectory (m_userSettingsPath a) ∈ directories w' ∧
    GetDirectory (GetDirectory (m_userSettingsPath a)) ∈ directories w' ∧
    (∀ s, m_settings a = Some s → AddonSettings.Save s = None → files w' = files w).
Proof.
  intros El. unfold SettingsLoaded in El.
  destruct (m_settings a) as [s|] eqn:Es; [|done].
  pose proof (IsLoaded_IsInitialized s El) as Ei.
  destruct (SaveSettings_loaded id a w s Es El) as (w' & E & Ef & Ed & _).
  exists (with_hasUserSettings true a), w'. split_and!; [done| |done|apply Ed; auto..|].
  - rewrite HasUserSettings_initialized by (unfold SettingsInitialized; cbn; by rewrite Es).
    unfold SettingsLoaded. cbn. by rewrite Es, El.
  - intros s' [= <-] ES. by rewrite ES in Ef.
Qed.

(** *** Values written and read back *)

Lemma apply_value_other kv (t : gmap string CSetting) key :
  key ≠ kv.1 → AddonSettings.apply_value kv t !! key = t !! key.
Proof.
  intros Hne. unfold AddonSettings.apply_value.
  destruct (t !! kv.1) as [node|]; [|done].
  destruct (FromString kv.2 node); [|done]. by rewrite lookup_insert_ne.
Qed.

Lemma foldr_apply_value_other vals (t : gmap string CSetting) key :
  key ∉ vals.*1 → foldr AddonSettings.apply_value t vals !! key = t !! key.
Proof.
  induction vals as [|kv vals IH]; [done|]. cbn. intros Hn.
  apply not_elem_of_cons in Hn as [Hne Hn]. by rewrite apply_value_other, IH.
Qed.

Lemma fst_saved (l : list (string * CSetting)) :
  (prod_map id ToString <$> l).*1 = l.*1.
Proof. induction l as [|[??] l IH]; [done|]. cbn. by rewrite IH. Qed.

Lemma foldr_apply_value_saved (l : list (string * CSetting)) (t0 : gmap string CSetting) key node :
  NoDup l.*1 →
  (key, node) ∈ l →
  (∃ node0, t0 !! key = Some node0 ∧ FromString (ToString node) node0 = Some node) →
  foldr AddonSettings.apply_value t0 (prod_map id ToString <$> l) !! key = Some node.
Proof.
  induction l as [|[k n] l IH]; [by intros _ ?%elem_of_nil|].
  cbn. intros [Hk Hnd]%NoDup_cons [[= <- <-]|Hin]%elem_of_cons (node0 & E0 & Efs).
  - unfold AddonSettings.apply_value. cbn.
    rewrite foldr_apply_value_other by (by rewrite fst_saved).
    by rewrite E0, Efs, lookup_insert_eq.
  - rewrite apply_value_other; [by eauto|]. cbn. intros ->.
    apply Hk. apply list_elem_of_fmap. by exists (k, node).
Qed.

(** Loading what [Save] wrote onto the schema gives the table back. *)
Lemma Load_saved_table (t t0 : gmap string CSetting) :
  (∀ key, Reset <$> t0 !! key = Reset <$> t !! key) →
  (∀ key node node0, t !! key = Some node → Reset node0 = Reset node →
     FromString (ToString node) node0 = Some node) →
  foldr AddonSettings.apply_value t0 (prod_map id ToString <$> map_to_list t) = t.
Proof.
  intros Hsame Hfs. apply map_eq. intros key.
  destruct (t !! key) as [node|] eqn:E.
  - specialize (Hsame key). rewrite E in Hsame.
    destruct (t0 !! key) as [node0|] eqn:E0; [|done]. cbn in Hsame.
    apply foldr_apply_value_saved.
    + apply NoDup_fst_map_to_list.
    + by apply elem_of_map_to_list.
    + exists node0. split; [done|]. eapply Hfs; [done|congruence].
  - rewrite foldr_apply_value_other.
    + specialize (Hsame key). rewrite E in Hsame. by destruct (t0 !! key).
    + rewrite fst_saved. intros ([k n] & -> & Hin%elem_of_map_to_list)%list_elem_of_fmap.
      cbn in E. congruence.
Qed.

(** X10.  Round trip.  Let TinyXML read back what it builds, and let each
    node of a loaded store take its own text back.  After [SaveSettings],
    an add-on with the same user-values path (a new object for the same
    add-on, or the same object with a forced reload) whose settings
    definition has the keys and defaults of that store loads the very
    store that was saved: same keys, same values, Loaded, with user
    settings. *)
Theorem X10_save_then_load bForce id a w a1 w1 s doc b sdoc defs :
  (∀ vals d, WriteValues vals = Some d → RootElement d = true ∧ ReadValues d = Some vals) →
  m_settings a = Some s →
  AddonSettings.IsLoaded s = true →
  (∀ key node node0, AddonSettings.m_table s !! key = Some node →
     Reset node0 = Reset node → FromString (ToString node) node0 = Some node) →
  AddonSettings.Save s = Some doc →
  SaveSettings id a w = Ok () a1 w1 →
  m_userSettingsPath b = m_userSettingsPath a →
  m_loadSettingsFailed b = false →
  bForce = true ∨ SettingsInitialized id b = false →
  files w1 !! DefinitionFile b = Some (WellFormed sdoc) →
  ReadDefinitions sdoc = Some defs →
  (∀ key, Reset <$> (list_to_map defs : gmap string CSetting) !! key
          = Reset <$> AddonSettings.m_table s !! key) →
  ∃ b' w2, LoadSettings bForce true id b w1 = Ok true b' w2 ∧
    m_settings b' = Some s ∧
    (∀ key, StoredSetting key b' = StoredSetting key a) ∧
    m_hasUserSettings b' = true ∧
    HasUserSettings id b' w2 = Ok true b' w2.
Proof.
  intros Hrw Es El Hfs ES Esave Hpath F Hatt ED Edefs Hschema.
  pose proof (IsLoaded_IsInitialized s El) as Ei.
  destruct (SaveSettings_loaded id a w s Es El) as (w' & E & Ef & _).
  rewrite Esave in E. simplify_eq. rewrite ES in Ef.
  pose proof ES as ES'. unfold AddonSettings.Save in ES'. rewrite Ei in ES'. cbn in ES'.
  destruct (Hrw _ _ ES') as [Eroot Eread].
  rewrite LoadSettings_attempt_eq by done. cbn zeta. rewrite ED.
  rewrite (Initialize_attempt _ _ _ Edefs). cbn [fst snd].
  erewrite LoadUserSettings_initialized_eq by (cbn; done). cbn zeta.
  destruct b as [info path st failed hus].
  cbn [m_userSettingsPath with_loadSettingsFailed with_settings with_hasUserSettings] in *.
  subst path. rewrite files_add_event, Ef, lookup_insert_eq.
  erewrite SettingsFromXML_initialized_eq by (cbn; done).
  rewrite Eroot. cbn [negb]. cbn zeta. unfold AddonSettings.Load. cbn [AddonSettings.IsInitialized
    AddonSettings.m_lifecycle negb]. rewrite Eread. cbn [fst snd AddonSettings.m_table].
  rewrite Load_saved_table.
  - assert ({| AddonSettings.m_lifecycle := AddonSettings.Loaded;
               AddonSettings.m_table := AddonSettings.m_table s |} = s) as ->.
    { destruct s as [[] t]; by cbn in El |- *. }
    eexists _, _. split_and!; [reflexivity|done| |done|].
    + intros key. unfold StoredSetting. cbn. by rewrite Es.
    + rewrite HasUserSettings_initialized by done. unfold SettingsLoaded. cbn. by rewrite El.
  - intros key. rewrite <-Hschema, lookup_fmap.
    destruct (list_to_map defs !! key) as [n|]; [|done]. cbn. by destruct n.
  - exact Hfs.
Qed.

(** *** Updates read back *)

Lemma IsTSetting_SetValue_GetValue T value node node' :
  IsTSetting T → SetValue T value node = Some node' →
  GetValue T node' = Some value ∧ GetType node' = Type_ T.
Proof. intros [->|[->|[->| ->]]]; destruct node; cbn; intros; by simplify_eq. Qed.

Lemma AddSetting_IsInitialized T key value s :
  AddonSettings.IsInitialized (AddonSettings.AddSetting T key value s).2
    = AddonSettings.IsInitialized s.
Proof. unfold AddonSettings.AddSetting. by repeat case_match. Qed.

Lemma HasSettings_lookup s key node :
  AddonSettings.m_table s !! key = Some node → AddonSettings.HasSettings s = true.
Proof.
  intros E. unfold AddonSettings.HasSettings. apply bool_decide_eq_true_2.
  intros Hsize%map_size_empty_inv. by rewrite Hsize, lookup_empty in E.
Qed.

(** A typed update that returns true leaves, under the key, a node of the
    kind of the update holding the value. *)
Lemma UpdateSettingValue_true T id key value a w a' w' :
  IsTSetting T →
  UpdateSettingValue T id key value a w = Ok true a' w' →
  key ≠ "" ∧
  ∃ s node, m_settings a' = Some s ∧ AddonSettings.IsInitialized s = true ∧
    AddonSettings.m_table s !! key = Some node ∧
    GetValue T node = Some value ∧ GetType node = Type_ T.
Proof.
  intros HT. unfold UpdateSettingValue. case_bool_decide as Hk; run; [done|].
  destruct (HasSettings_spec id a w) as (r0 & a0 & w0 & E & Ht & _). rewrite E.
  destruct r0; run; [|done].
  destruct (Ht eq_refl) as (s & Es & Ei & _).
  rewrite (good_Some _ _ _ _ _ GetSettings_good Es). run. rewrite Es.
  destruct (AddonSettings.GetSetting key s) as [node|]; run.
  - case_bool_decide; [done|].
    destruct (SetValue T value node) as [node'|] eqn:Eset; [|done]. run. rewrite Es.
    intros [= <- <-]. split; [done|].
    destruct (IsTSetting_SetValue_GetValue T value node node' HT Eset) as [? ?].
    eexists _, node'. split_and!; [done|done| |done|done]. cbn. by rewrite lookup_insert_eq.
  - rewrite (good_Some _ _ _ _ _ GetSettings_good Es). run. rewrite Es.
    pose proof (AddSetting_IsInitialized T key value s) as Ei'.
    destruct (AddonSettings.AddSetting T key value s) as [[node|] s1]; run; [|done].
    case_bool_decide; [done|].
    destruct (SetValue T value node) as [node'|] eqn:Eset; [|done]. run.
    intros [= <- <-]. split; [done|].
    destruct (IsTSetting_SetValue_GetValue T value node node' HT Eset) as [? ?].
    eexists _, node'. split_and!; [done| |  |done|done]; cbn.
    + unfold AddonSettings.IsInitialized in *. cbn in *. congruence.
    + by rewrite lookup_insert_eq.
Qed.

(** X11.  A typed update that returns true is read back: the typed getter
    of the same kind then returns true with the value just assigned,
    whatever the caller's variable held, and changes nothing. *)
Theorem X11_update_then_get T id key value a w a' w' :
  IsTSetting T →
  UpdateSettingValue T id key value a w = Ok true a' w' →
  ∀ value0, GetSettingValue T id key value0 a' w' = Ok (true, value) a' w'.
Proof.
  intros HT E value0.
  destruct (UpdateSettingValue_true T id key value a w a' w' HT E)
    as (Hk & s & node & Es & Ei & En & Eget & Ety).
  unfold GetSettingValue, HasSettings. rewrite bool_decide_eq_false_2 by done. run.
  rewrite LoadSettings_initialized by (unfold SettingsInitialized; by rewrite Es). run.
  rewrite Es, (HasSettings_lookup s key node En). run.
  rewrite (good_Some _ _ _ _ _ GetSettings_good Es). run. rewrite Es.
  unfold AddonSettings.GetSetting. rewrite En.
  rewrite bool_decide_eq_false_2 by (by intros ?). by rewrite Eget.
Qed.

(** X12.  On a schema that defines no setting the two updates differ: a
    typed update of a new key returns false and changes nothing, because
    [HasSettings] is false, while [UpdateSetting] defines the key; after
    that [HasSettings] is true and typed updates are accepted. *)
Theorem X12_updates_on_an_empty_schema T id key value tvalue a w s :
  m_settings a = Some s →
  AddonSettings.IsInitialized s = true →
  AddonSettings.m_table s = ∅ →
  key ≠ "" →
  UpdateSettingValue T id key tvalue a w = Ok false a w ∧
  ∃ a', UpdateSetting key value id a w = Ok () a' w ∧
    is_Some (StoredSetting key a') ∧
    HasSettings id a' w = Ok true a' w.
Proof.
  intros Es Ei Et Hk.
  assert (SettingsInitialized id a = true) as Eia by (unfold SettingsInitialized; by rewrite Es).
  split.
  - unfold UpdateSettingValue, HasSettings. rewrite bool_decide_eq_false_2 by done. run.
    rewrite LoadSettings_initialized by done. run. rewrite Es.
    unfold AddonSettings.HasSettings. rewrite Et, map_size_empty.
    by rewrite bool_decide_eq_false_2 by (by intros ?).
  - unfold UpdateSetting. rewrite bool_decide_eq_false_2 by done. run.
    rewrite LoadSettings_initialized by done. run. rewrite Es.
    unfold AddonSettings.GetSetting. rewrite Et, lookup_empty. run. rewrite Es.
    unfold AddonSettings.AddSetting.
    rewrite Et, lookup_empty, bool_decide_eq_false_2 by done. run.
    assert (∀ a' s' node, m_settings a' = Some s' →
              AddonSettings.IsInitialized s' = true →
              AddonSettings.m_table s' !! key = Some node →
              is_Some (StoredSetting key a') ∧ HasSettings id a' w = Ok true a' w) as Hdef.
    { intros a' s' node Es' Ei' En. split.
      - unfold StoredSetting. rewrite Es'. cbn. unfold AddonSettings.GetSetting. by rewrite En.
      - unfold HasSettings. run.
        rewrite LoadSettings_initialized by (unfold SettingsInitialized; by rewrite Es'). run.
        by rewrite Es', (HasSettings_lookup s' key node En). }
    destruct (FromString value (Create TSettingString value)) as [node'|]; run.
    all: eexists; split; [reflexivity|]; eapply Hdef; [reflexivity|exact Ei|].
    all: cbn; by rewrite lookup_insert_eq.
Qed.

Lemma apply_value_is_Some kv (t : gmap string CSetting) key :
  is_Some (AddonSettings.apply_value kv t !! key) ↔ is_Some (t !! key).
Proof.
  unfold AddonSettings.apply_value.
  destruct (t !! kv.1) as [node|] eqn:E; [|done].
  destruct (FromString kv.2 node); [|done].
  destruct (decide (key = kv.1)) as [->|Hne].
  - rewrite lookup_insert_eq, E. split; eauto.
  - by rewrite lookup_insert_ne.
Qed.

Lemma foldr_apply_value_is_Some vals (t : gmap string CSetting) key :
  is_Some (foldr AddonSettings.apply_value t vals !! key) ↔ is_Some (t !! key).
Proof.
  induction vals as [|kv vals IH]; [done|]. cbn. by rewrite apply_value_is_Some.
Qed.

(** X13.  [SettingsFromXML] on an initialized store with a values
    document: it returns true, the store is Loaded and [m_hasUserSettings]
    is set; a key the document does not mention keeps its value, or is
    back at its default when [loadDefaults] is set, so that stale values do
    not survive; and the document adds no key to the store. *)
Theorem X13_values_from_a_document doc loadDefaults id a w s vals :
  m_settings a = Some s →
  AddonSettings.IsInitialized s = true →
  RootElement doc = true →
  ReadValues doc = Some vals →
  ∃ a', SettingsFromXML doc loadDefaults id a w = Ok true a' w ∧
    SettingsLoaded id a' = true ∧
    m_hasUserSettings a' = true ∧
    (∀ key, key ∉ vals.*1 →
       StoredSetting key a' =
         (if loadDefaults then Reset <$> StoredSetting key a else StoredSetting key a)) ∧
    (∀ key, is_Some (StoredSetting key a') ↔ is_Some (StoredSetting key a)).
Proof.
  intros Es Ei Eroot Eread.
  rewrite (SettingsFromXML_initialized_eq _ _ _ _ _ s Es Ei), Eroot. cbn [negb]. cbn zeta.
  unfold AddonSettings.Load.
  assert (AddonSettings.IsInitialized
            (if loadDefaults then AddonSettings.SetDefaults s else s) = true) as ->
    by (by destruct loadDefaults).
  cbn [negb]. rewrite Eread. cbn [fst snd].
  eexists. split_and!; [reflexivity|done|done|..].
  - intros key Hk. unfold StoredSetting. cbn. rewrite Es. cbn.
    unfold AddonSettings.GetSetting. cbn. rewrite foldr_apply_value_other by done.
    destruct loadDefaults; [|done]. cbn. by rewrite lookup_fmap.
  - intros key. unfold StoredSetting. cbn. rewrite Es. cbn.
    unfold AddonSettings.GetSetting. cbn. rewrite foldr_apply_value_is_Some.
    destruct loadDefaults; [|done]. cbn. rewrite lookup_fmap. apply fmap_is_Some.
Qed.

(** X14.  How [SettingsFromXML] fails.  A document without a root element
    is refused before anything is touched, not even the store is created.
    On an initialized store, a document whose values cannot be loaded is
    logged and refused, [m_hasUserSettings] keeping its value; the settings
    keep their values, unless [loadDefaults] is set: then they have
    already been reset to their defaults when the load fails. *)
Theorem X14_SettingsFromXML_failures doc loadDefaults id a w :
  (RootElement doc = false → SettingsFromXML doc loadDefaults id a w = Ok false a w) ∧
  (∀ s, m_settings a = Some s → AddonSettings.IsInitialized s = true →
     RootElement doc = true → ReadValues doc = None →
     ∃ a', SettingsFromXML doc loadDefaults id a w
             = Ok false a'
                 (add_event (CLog_Log (ID (m_addonInfo a)) failed_to_load_user_settings) w) ∧
       m_hasUserSettings a' = m_hasUserSettings a ∧
       SettingsLoaded id a' = SettingsLoaded id a ∧
       ∀ key, StoredSetting key a' =
         (if loadDefaults then Reset <$> StoredSetting key a else StoredSetting key a)).
Proof.
  split.
  - intros Eroot. unfold SettingsFromXML, SettingsFromXML_with. by rewrite Eroot.
  - intros s Es Ei Eroot Eread.
    rewrite (SettingsFromXML_initialized_eq _ _ _ _ _ s Es Ei), Eroot. cbn [negb]. cbn zeta.
    unfold AddonSettings.Load.
    assert (AddonSettings.IsInitialized
              (if loadDefaults then AddonSettings.SetDefaults s else s) = true) as ->
      by (by destruct loadDefaults).
    cbn [negb]. rewrite Eread. cbn [fst snd].
    eexists. split_and!; [reflexivity|done|..].
    + unfold SettingsLoaded. cbn. rewrite Es. by destruct loadDefaults.
    + intros key. unfold StoredSetting. cbn. rewrite Es. cbn.
      destruct loadDefaults; [|done]. unfold AddonSettings.GetSetting. cbn.
      by rewrite lookup_fmap.
Qed.

(** X15.  [GetSettings] always hands out a store: it returns, a store
    exists afterwards, and nothing is written.  With a store in place it
    changes nothing; without one it creates the store and makes the
    non-forced load on it; a second call changes nothing. *)
Theorem X15_GetSettings_yields_a_store id a w :
  ∃ a' w', GetSettings id a w = Ok () a' w' ∧
    is_Some (m_settings a') ∧
    only_events w w' ∧
    (is_Some (m_settings a) → a' = a ∧ w' = w) ∧
    (m_settings a = None →
       ∃ r, LoadSettings false true id
              (with_settings (Some AddonSettings.make_shared) a) w = Ok r a' w') ∧
    GetSettings id a' w' = Ok () a' w'.
Proof.
  destruct (m_settings a) as [s|] eqn:Es.
  - exists a, w. rewrite (good_Some _ _ _ _ _ GetSettings_good Es).
    split_and!; eauto using only_events_refl. done.
  - unfold GetSettings at 1, GetSettings_with. run. rewrite Es. run.
    destruct (LoadSettings_spec false true id (with_settings (Some AddonSettings.make_shared) a) w)
      as (r & a' & w' & E & _). rewrite E.
    apply LoadSettings_frame in E as E'. destruct E' as (Hw & _ & _ & Hs & _).
    destruct Hs as [s' Es']; [by eexists|].
    exists a', w'. split_and!; [done|by eexists|done|by intros [??]|by eauto|].
    by rewrite (good_Some _ _ _ _ _ GetSettings_good Es').
Qed.

End Runs.

(** ** The properties on the sample add-on *)

Import Sample.
#[local] Existing Instance collaborators.

(** C1 on the sample: a first load that finds no schema, then a later call with the schema on disk. *)
Lemma C1_witness :
  m_loadSettingsFailed fresh = false ∧
  LoadSettings false true ADDON_SETTINGS_ID fresh empty_world
    = Ok false failed_addon probed_world ∧
  LoadSettings false true ADDON_SETTINGS_ID failed_addon schema_world
    = Ok false failed_addon schema_world.
Proof.
  assert (LoadSettings false true ADDON_SETTINGS_ID fresh empty_world
            = Ok false failed_addon probed_world) as R by (vm_compute; reflexivity).
  split; [reflexivity|]. split; [exact R|].
  apply (C1_failed_load_is_sticky false true ADDON_SETTINGS_ID fresh empty_world
           failed_addon probed_world eq_refl R).
Defined.

(** C1, as stated, fails: the add-on whose first load found no schema is
    asked to reload with [bForce = true] once a valid schema is on disk; the
    call returns false and leaves the world as it is, so the file is not
    read and nothing is initialized.  The guard on [m_loadSettingsFailed]
    comes before everything [bForce] governs. *)
Lemma C1_force_does_not_retry :
  LoadSettings false true ADDON_SETTINGS_ID fresh empty_world
    = Ok false failed_addon probed_world ∧
  files schema_world !! DefinitionFile failed_addon = Some (WellFormed schema) ∧
  LoadSettings true true ADDON_SETTINGS_ID failed_addon schema_world
    = Ok false failed_addon schema_world ∧
  ReloadSettings ADDON_SETTINGS_ID failed_addon schema_world
    = Ok false failed_addon schema_world.
Proof. split_and!; vm_compute; reflexivity. Qed.

(** C2 on the sample: the fresh add-on with nothing on disk. *)
Lemma C2_witness :
  files empty_world !! DefinitionFile fresh = None ∧
  SettingsInitialized ADDON_SETTINGS_ID fresh = false ∧
  value_of (HasSettings ADDON_SETTINGS_ID fresh empty_world) = Some false ∧
  value_of (GetSetting "k" ADDON_SETTINGS_ID fresh empty_world) = Some "".
Proof.
  assert (files empty_world !! DefinitionFile fresh = None) as EF by (vm_compute; reflexivity).
  destruct (C2_no_definition_no_settings ADDON_SETTINGS_ID fresh empty_world EF eq_refl)
    as [(a1 & w1 & E1 & _) Hget].
  destruct (Hget "k") as (a2 & w2 & E2 & _).
  split; [exact EF|]. split; [reflexivity|]. split.
  - rewrite E1. reflexivity.
  - rewrite E2. reflexivity.
Defined.

(** C2, as stated, fails: no settings definition is on disk, before or
    after; a caller hands a definition to [SettingsFromXML], which
    initializes the store from it ("if the settings haven't been
    initialized yet, try it from the given XML"); then [HasSettings] is
    true and [GetSetting] returns the value of "k". *)
Lemma C2_settings_from_a_given_document :
  files empty_world !! DefinitionFile fresh = None ∧
  match SettingsFromXML schema false ADDON_SETTINGS_ID fresh empty_world with
  | Ok _ a w =>
      files w !! DefinitionFile a = None ∧
      value_of (HasSettings ADDON_SETTINGS_ID a w) = Some true ∧
      value_of (GetSetting "k" ADDON_SETTINGS_ID a w) = Some "true"
  | Crash _ => False
  end.
Proof. split; [vm_compute; reflexivity|]. vm_compute. split_and!; reflexivity. Qed.

(** C3 on the sample: the add-on as the schema initializes it, with no user-values file. *)
Lemma C3_witness :
  SettingsInitialized ADDON_SETTINGS_ID initialized_addon = true ∧
  files schema_world !! m_userSettingsPath initialized_addon = None ∧
  ∃ a' w', LoadUserSettings ADDON_SETTINGS_ID initialized_addon schema_world = Ok true a' w' ∧
    SettingsLoaded ADDON_SETTINGS_ID a' = true ∧
    StoredSetting "k" a' = Some (CSettingBool true true) ∧
    HasUserSettings ADDON_SETTINGS_ID a' w' = Ok false a' w'.
Proof.
  assert (files schema_world !! m_userSettingsPath initialized_addon = None) as EF
    by (vm_compute; reflexivity).
  destruct (C3_no_user_file_marks_loaded ADDON_SETTINGS_ID initialized_addon schema_world
              eq_refl EF) as (a' & w' & E1 & E2 & E3 & _ & _ & E4).
  split; [reflexivity|]. split; [exact EF|].
  exists a', w'. split_and!; [exact E1|exact E2| |exact E4].
  rewrite E3. vm_compute. reflexivity.
Defined.

(** C3, as stated, fails: the schema is loaded without the user values,
    "k" (true by default) is set to false, and [LoadUserSettings] then finds
    no user-values file: it returns true and marks the store Loaded, with
    "k" still false, not at its default. *)
Lemma C3_values_are_not_reset :
  (LoadSettings false false ADDON_SETTINGS_ID ;; UpdateSettingBool "k" false ADDON_SETTINGS_ID)
    fresh schema_world = Ok true edited_addon
      {| files := files schema_world; directories := ∅;
         events := [TinyXML_LoadFile definitionFile] |} ∧
  SettingsInitialized ADDON_SETTINGS_ID edited_addon = true ∧
  files schema_world !! m_userSettingsPath edited_addon = None ∧
  match LoadUserSettings ADDON_SETTINGS_ID edited_addon schema_world with
  | Ok r a' w' =>
      r = true ∧ SettingsLoaded ADDON_SETTINGS_ID a' = true ∧
      StoredSetting "k" a' = Some (CSettingBool true false) ∧
      ¬ IsDefault (CSettingBool true false) ∧
      value_of (GetSettingBool "k" true ADDON_SETTINGS_ID a' w') = Some (true, false)
  | Crash _ => False
  end.
Proof.
  split_and!; [vm_compute; reflexivity..|].
  vm_compute. split_and!; [reflexivity..|discriminate|reflexivity].
Qed.

(** C4 on the sample: the add-on as the schema initializes it, with a user-values file that does not parse. *)
Lemma C4_witness :
  SettingsInitialized ADDON_SETTINGS_ID initialized_addon = true ∧
  files broken_user_world !! m_userSettingsPath initialized_addon
    = Some (Malformed 3 "Error reading end tag.") ∧
  ∃ a' w', LoadUserSettings ADDON_SETTINGS_ID initialized_addon broken_user_world
             = Ok false a' w' ∧
    SettingsLoaded ADDON_SETTINGS_ID a' = false ∧
    StoredSetting "k" a' = Some (CSettingBool true true).
Proof.
  assert (files broken_user_world !! m_userSettingsPath initialized_addon
            = Some (Malformed 3 "Error reading end tag.")) as EF by (vm_compute; reflexivity).
  destruct (C4_malformed_user_file_changes_nothing ADDON_SETTINGS_ID initialized_addon
              broken_user_world _ _ eq_refl EF)
    as (a' & w' & E1 & _ & _ & E2 & _ & E3 & _).
  split; [reflexivity|]. split; [exact EF|].
  exists a', w'. split_and!; [exact E1|by apply E2|].
  apply E3; vm_compute; reflexivity.
Defined.

(** C5 on the sample: the integer getter on the boolean setting. *)
Lemma C5_witness :
  IsTSetting TSettingInt ∧
  ∃ a' w', GetSettingInt "k" 7 ADDON_SETTINGS_ID initialized_addon schema_world
             = Ok (false, 7%Z) a' w'.
Proof.
  assert (IsTSetting TSettingInt) as HT by (right; left; reflexivity).
  destruct (C5_typed_get_mismatch TSettingInt ADDON_SETTINGS_ID "k" 7%Z
              initialized_addon schema_world HT)
    as (ok & value' & a' & w' & E1 & _ & _ & E2 & E3).
  destruct (E3 eq_refl) as [-> ->].
  destruct (E2 (CSettingBool true true)) as [-> ->]; [vm_compute; reflexivity|discriminate|].
  split; [exact HT|]. by eexists _, _.
Defined.

(** C6 on the sample: the string update of a key the schema does not have. *)
Lemma C6_witness :
  IsTSetting TSettingString ∧
  "newkey" ≠ "" ∧
  HasSettings ADDON_SETTINGS_ID initialized_addon schema_world
    = Ok true initialized_addon schema_world ∧
  StoredSetting "newkey" initialized_addon = None ∧
  ∃ a2, UpdateSettingString "newkey" "v" ADDON_SETTINGS_ID initialized_addon schema_world
          = Ok true a2 schema_world ∧
    StoredSetting "newkey" a2 = Some (CSettingString "v" "v") ∧
    StoredSetting "k" a2 = Some (CSettingBool true true).
Proof.
  assert (IsTSetting TSettingString) as HT by (do 3 right; reflexivity).
  assert ("newkey" ≠ "") as Hk by discriminate.
  assert (HasSettings ADDON_SETTINGS_ID initialized_addon schema_world
            = Ok true initialized_addon schema_world) as EH by (vm_compute; reflexivity).
  destruct (C6_typed_update TSettingString ADDON_SETTINGS_ID "newkey" "v"
              initialized_addon schema_world HT) as (_ & _ & Hmain).
  specialize (Hmain Hk _ _ EH).
  change (StoredSetting "newkey" initialized_addon) with (@None CSetting) in Hmain.
  destruct Hmain as (a2 & E1 & E2 & _ & _ & E3).
  split_and!; [exact HT|exact Hk|exact EH|reflexivity|].
  exists a2. split_and!; [exact E1|exact E2|].
  rewrite E3 by discriminate. vm_compute. reflexivity.
Defined.

(** C6, as stated, fails: on the add-on with no settings definition the key
    "newkey" does not exist, yet [UpdateSettingString] returns false and
    defines nothing, because [HasSettings] is false. *)
Lemma C6_no_settings_no_update :
  StoredSetting "newkey" fresh = None ∧
  match UpdateSettingString "newkey" "v" ADDON_SETTINGS_ID fresh empty_world with
  | Ok r a' w' =>
      r = false ∧ StoredSetting "newkey" a' = None ∧
      value_of (GetSetting "newkey" ADDON_SETTINGS_ID a' w') = Some ""
  | Crash _ => False
  end.
Proof. split; [reflexivity|]. vm_compute. split_and!; reflexivity. Qed.

(** C7 on the sample: the empty key and the key of the schema. *)
Lemma C7_witness :
  "k" ≠ "" ∧
  GetSetting "" ADDON_SETTINGS_ID initialized_addon schema_world
    = Ok "" initialized_addon schema_world ∧
  GetSetting "k" ADDON_SETTINGS_ID initialized_addon schema_world
    = Ok "true" initialized_addon schema_world.
Proof.
  assert ("k" ≠ "") as Hk by discriminate.
  destruct (C7_GetSetting "" ADDON_SETTINGS_ID initialized_addon schema_world) as [E0 _].
  destruct (C7_GetSetting "k" ADDON_SETTINGS_ID initialized_addon schema_world) as [_ E1].
  destruct (E1 Hk) as (ok & a' & w' & EL & EG).
  assert (ok = true ∧ a' = initialized_addon ∧ w' = schema_world) as (-> & -> & ->).
  { revert EL. vm_compute. intros [= <- <- <-]. by split_and!. }
  split_and!; [exact Hk|by apply E0|]. rewrite EG. vm_compute. reflexivity.
Defined.

(** C8 on the sample: a loaded store and a TinyXML that cannot build the document. *)
Lemma C8_witness :
  m_settings configured_addon = Some (store AddonSettings.Loaded false) ∧
  AddonSettings.IsLoaded (store AddonSettings.Loaded false) = true ∧
  @AddonSettings.Save unbuildable (store AddonSettings.Loaded false) = None ∧
  ∃ w' evs, @SaveSettings unbuildable ADDON_SETTINGS_ID configured_addon blank_world
              = Ok () (with_hasUserSettings true configured_addon) w' ∧
    files w' = ∅ ∧ events w' = evs ∧
    AddonMgr_ReloadSettings "plugin.demo" ADDON_SETTINGS_ID ∈ evs ∧
    XBPython_OnSettingsChanged "plugin.demo" ∈ evs.
Proof.
  assert (@AddonSettings.Save unbuildable (store AddonSettings.Loaded false) = None) as ES
    by reflexivity.
  destruct (@C8_save_failure_still_notifies unbuildable ADDON_SETTINGS_ID configured_addon
              blank_world (store AddonSettings.Loaded false) eq_refl eq_refl ES)
    as (w' & evs & E1 & E2 & E3 & _ & E4 & E5).
  split_and!; [reflexivity|reflexivity|exact ES|].
  exists w', evs. split_and!; [exact E1|exact E2|exact E3|exact E4|by apply E5].
Defined.

(** C9 on the sample: the add-on whose load failed. *)
Lemma C9_witness :
  m_loadSettingsFailed failed_addon = true ∧
  ∃ a', ResetSettings ADDON_SETTINGS_ID failed_addon schema_world = Ok () a' schema_world ∧
    SettingsInitialized ADDON_SETTINGS_ID a' = false ∧
    LoadSettings false true ADDON_SETTINGS_ID a' schema_world = Ok false a' schema_world.
Proof.
  destruct (C9_reset_keeps_failure_flag ADDON_SETTINGS_ID failed_addon schema_world)
    as (a' & E1 & E2 & _ & _ & E3).
  split; [reflexivity|]. exists a'. split_and!; [exact E1|exact E2|by apply E3].
Defined.

(** C10 on the sample: an add-on with user settings loaded, and a user-values file that no longer parses. *)
Lemma C10_witness :
  SettingsInitialized ADDON_SETTINGS_ID configured_addon = true ∧
  m_hasUserSettings configured_addon = true ∧
  files broken_user_world !! m_userSettingsPath configured_addon
    = Some (Malformed 3 "Error reading end tag.") ∧
  ∃ a' w', LoadUserSettings ADDON_SETTINGS_ID configured_addon broken_user_world
             = Ok false a' w' ∧
    m_hasUserSettings a' = false ∧
    HasUserSettings ADDON_SETTINGS_ID a' w' = Ok false a' w'.
Proof.
  assert (files broken_user_world !! m_userSettingsPath configured_addon
            = Some (Malformed 3 "Error reading end tag.")) as EF by (vm_compute; reflexivity).
  destruct (C10_failed_user_load_clears_flag ADDON_SETTINGS_ID configured_addon
              broken_user_world eq_refl) as [Hparse Hany].
  destruct (Hparse _ _ EF) as (w' & EL).
  destruct (Hany _ _ EL) as [E1 E2].
  split_and!; [reflexivity|reflexivity|exact EF|].
  by exists (with_hasUserSettings false configured_addon), w'.
Defined.

(** The first run of the spec: a schema with the boolean "k", true by
    default, and no user-values file; the getter loads the settings, reads
    true, and there are no user settings. *)
Example first_run :
  value_of (GetSettingBool "k" false ADDON_SETTINGS_ID fresh schema_world) = Some (true, true) ∧
  value_of (HasUserSettings ADDON_SETTINGS_ID fresh schema_world) = Some false.
Proof. split; vm_compute; reflexivity. Qed.

(** A key the schema does not have is defined as a string by the string
    update, and the integer getter then fails on it and leaves 7 in the
    caller's variable. *)
Example update_then_mismatch :
  value_of ((UpdateSettingString "newkey" "v" ADDON_SETTINGS_ID ;;
             GetSettingInt "newkey" 7 ADDON_SETTINGS_ID) fresh schema_world)
    = Some (false, 7%Z).
Proof. vm_compute. reflexivity. Qed.

(** ** The further properties on the sample add-on *)

(** X1 on the sample: the first load of the schema, then a second call in
    a world where the schema is gone. *)
Lemma X1_witness :
  LoadSettings false true ADDON_SETTINGS_ID fresh schema_world
    = Ok true loaded_addon after_first_load ∧
  LoadSettings false true ADDON_SETTINGS_ID loaded_addon empty_world
    = Ok true loaded_addon empty_world.
Proof.
  assert (LoadSettings false true ADDON_SETTINGS_ID fresh schema_world
            = Ok true loaded_addon after_first_load) as E by (vm_compute; reflexivity).
  split; [exact E|].
  apply (X1_loaded_once false true ADDON_SETTINGS_ID fresh schema_world _ _ E true empty_world).
Defined.

(** X2 on the sample: a load that fails and a load that succeeds. *)
Lemma X2_witness :
  m_loadSettingsFailed fresh = false ∧
  LoadSettings false true ADDON_SETTINGS_ID fresh empty_world
    = Ok false failed_addon probed_world ∧
  LoadSettings false true ADDON_SETTINGS_ID fresh schema_world
    = Ok true loaded_addon after_first_load ∧
  m_loadSettingsFailed failed_addon = negb false ∧
  m_loadSettingsFailed loaded_addon = negb true.
Proof.
  assert (LoadSettings false true ADDON_SETTINGS_ID fresh empty_world
            = Ok false failed_addon probed_world) as E1 by (vm_compute; reflexivity).
  assert (LoadSettings false true ADDON_SETTINGS_ID fresh schema_world
            = Ok true loaded_addon after_first_load) as E2 by (vm_compute; reflexivity).
  split_and!; [reflexivity|exact E1|exact E2| |].
  - exact (proj1 (X2_flag_tracks_result false true ADDON_SETTINGS_ID fresh empty_world
                    false failed_addon probed_world eq_refl E1)).
  - exact (proj1 (X2_flag_tracks_result false true ADDON_SETTINGS_ID fresh schema_world
                    true loaded_addon after_first_load eq_refl E2)).
Defined.

(** X3 on the sample: the first load with a user-values file that does not
    parse. *)
Lemma X3_witness :
  LoadSettings false true ADDON_SETTINGS_ID fresh broken_user_world
    = Ok true initialized_addon after_broken_load ∧
  only_events broken_user_world after_broken_load.
Proof.
  assert (LoadSettings false true ADDON_SETTINGS_ID fresh broken_user_world
            = Ok true initialized_addon after_broken_load) as E by (vm_compute; reflexivity).
  split; [exact E|].
  exact (proj1 (X3_loading_writes_nothing false true ADDON_SETTINGS_ID fresh
                  broken_user_world) _ _ _ E).
Defined.

(** X4 on the sample: a typed update that defines a key. *)
Lemma X4_witness :
  UpdateSettingString "newkey" "v" ADDON_SETTINGS_ID initialized_addon schema_world
    = Ok true extended_addon schema_world ∧
  only_events schema_world schema_world.
Proof.
  assert (UpdateSettingString "newkey" "v" ADDON_SETTINGS_ID initialized_addon schema_world
            = Ok true extended_addon schema_world) as E by (vm_compute; reflexivity).
  split; [exact E|].
  destruct (X4_accessors_write_nothing TSettingString ADDON_SETTINGS_ID "newkey"
              initialized_addon schema_world) as (_ & _ & _ & _ & _ & Hupd).
  exact (Hupd "v" _ _ _ E).
Defined.

(** X5 on the sample: the first load with a user-values file that does not
    parse. *)
Lemma X5_witness :
  m_loadSettingsFailed fresh = false ∧
  SettingsInitialized ADDON_SETTINGS_ID fresh = false ∧
  files broken_user_world !! DefinitionFile fresh = Some (WellFormed schema) ∧
  files broken_user_world !! m_userSettingsPath fresh
    = Some (Malformed 3 "Error reading end tag.") ∧
  ∃ a' w', LoadSettings false true ADDON_SETTINGS_ID fresh broken_user_world = Ok true a' w' ∧
    SettingsLoaded ADDON_SETTINGS_ID a' = false ∧
    SaveSettings ADDON_SETTINGS_ID a' w' = Ok () a' w'.
Proof.
  assert (files broken_user_world !! DefinitionFile fresh = Some (WellFormed schema)) as ED
    by (vm_compute; reflexivity).
  assert (files broken_user_world !! m_userSettingsPath fresh
            = Some (Malformed 3 "Error reading end tag.")) as EU by (vm_compute; reflexivity).
  destruct (X5_broken_user_file_keeps_defaults false ADDON_SETTINGS_ID fresh broken_user_world
              schema [("k", CSettingBool true true)] 3%Z "Error reading end tag."
              eq_refl (or_intror eq_refl) ED eq_refl EU)
    as (a' & w' & E & _ & _ & El & _ & _ & _ & Es).
  split_and!; [reflexivity|reflexivity|exact ED|exact EU|].
  exists a', w'. split_and!; [exact E|exact El|exact Es].
Defined.

(** X6 on the sample: a forced reload of the add-on whose "k" was set to
    false in memory. *)
Lemma X6_witness :
  m_loadSettingsFailed edited_addon = false ∧
  files schema_world !! DefinitionFile edited_addon = Some (WellFormed schema) ∧
  files schema_world !! m_userSettingsPath edited_addon = None ∧
  StoredSetting "k" edited_addon = Some (CSettingBool true false) ∧
  ∃ a' w', ReloadSettings ADDON_SETTINGS_ID edited_addon schema_world = Ok true a' w' ∧
    m_settings a' = Some (store AddonSettings.Loaded true).
Proof.
  assert (files schema_world !! DefinitionFile edited_addon = Some (WellFormed schema)) as ED
    by (vm_compute; reflexivity).
  assert (files schema_world !! m_userSettingsPath edited_addon = None) as EU
    by (vm_compute; reflexivity).
  destruct (X6_load_without_user_file true ADDON_SETTINGS_ID edited_addon schema_world
              schema [("k", CSettingBool true true)] eq_refl (or_introl eq_refl) ED eq_refl EU)
    as (a' & w' & E & Es & _).
  split_and!; [reflexivity|exact ED|exact EU|vm_compute; reflexivity|].
  exists a', w'. split; [exact E|]. rewrite Es. vm_compute. reflexivity.
Defined.

(** X7 on the sample: a forced reload once the schema is gone. *)
Lemma X7_witness :
  m_loadSettingsFailed initialized_addon = false ∧
  SettingsInitialized ADDON_SETTINGS_ID initialized_addon = true ∧
  files empty_world !! DefinitionFile initialized_addon = None ∧
  ∃ a' w', ReloadSettings ADDON_SETTINGS_ID initialized_addon empty_world = Ok false a' w' ∧
    StoredSetting "k" a' = None ∧
    LoadSettings true true ADDON_SETTINGS_ID a' schema_world = Ok false a' schema_world.
Proof.
  assert (files empty_world !! DefinitionFile initialized_addon = None) as ED
    by (vm_compute; reflexivity).
  assert (∀ doc, files empty_world !! DefinitionFile initialized_addon ≠ Some (WellFormed doc))
    as EN by (intros doc; rewrite ED; discriminate).
  destruct (X7_reload_without_definition ADDON_SETTINGS_ID initialized_addon empty_world
              eq_refl eq_refl EN) as (a' & w' & E & _ & _ & Ek & El & _).
  split_and!; [reflexivity|reflexivity|exact ED|].
  exists a', w'. split_and!; [exact E|apply Ek|apply El].
Defined.

(** X8 on the sample: the add-on with "k" set to false is saved. *)
Lemma X8_witness :
  m_settings configured_addon = Some (store AddonSettings.Loaded false) ∧
  AddonSettings.IsLoaded (store AddonSettings.Loaded false) = true ∧
  AddonSettings.Save (store AddonSettings.Loaded false) = Some values_false ∧
  ∃ w', SaveSettings ADDON_SETTINGS_ID configured_addon schema_world
          = Ok () configured_addon w' ∧
    files w' !! userFile = Some (WellFormed values_false) ∧
    files w' !! definitionFile = Some (WellFormed schema).
Proof.
  assert (AddonSettings.Save (store AddonSettings.Loaded false) = Some values_false) as ES
    by (vm_compute; reflexivity).
  destruct (X8_save_writes_user_values ADDON_SETTINGS_ID configured_addon schema_world
              (store AddonSettings.Loaded false) values_false eq_refl eq_refl ES)
    as (w' & E & Eu & Eo & _).
  split_and!; [reflexivity|reflexivity|exact ES|].
  exists w'. split_and!; [exact E|exact Eu|].
  rewrite Eo by discriminate. vm_compute. reflexivity.
Defined.

(** X9 on the sample: a save that cannot serialize still reports user
    settings. *)
Lemma X9_witness :
  @SettingsLoaded ADDON_SETTINGS_ID loaded_addon = true ∧
  m_hasUserSettings loaded_addon = false ∧
  ∃ a' w', @SaveSettings unbuildable ADDON_SETTINGS_ID loaded_addon blank_world
             = Ok () a' w' ∧
    @HasUserSettings unbuildable ADDON_SETTINGS_ID a' w' = Ok true a' w' ∧
    files w' = files blank_world.
Proof.
  destruct (@X9_user_settings_after_save unbuildable ADDON_SETTINGS_ID loaded_addon
              blank_world eq_refl) as (a' & w' & E & Eh & _ & _ & _ & Ef).
  split_and!; [reflexivity|reflexivity|].
  exists a', w'. split_and!; [exact E|exact Eh|].
  apply (Ef (store AddonSettings.Loaded true)); reflexivity.
Defined.

(** X10 on the sample: "k" is saved as false, and a new object for the
    add-on reads it back. *)
Lemma X10_witness :
  AddonSettings.Save (store AddonSettings.Loaded false) = Some values_false ∧
  SaveSettings ADDON_SETTINGS_ID configured_addon schema_world
    = Ok () configured_addon saved_world ∧
  files saved_world !! DefinitionFile fresh = Some (WellFormed schema) ∧
  ∃ b' w2, LoadSettings false true ADDON_SETTINGS_ID fresh saved_world = Ok true b' w2 ∧
    m_settings b' = Some (store AddonSettings.Loaded false) ∧
    m_hasUserSettings b' = true.
Proof.
  assert (AddonSettings.Save (store AddonSettings.Loaded false) = Some values_false) as ES
    by (vm_compute; reflexivity).
  assert (SaveSettings ADDON_SETTINGS_ID configured_addon schema_world
            = Ok () configured_addon saved_world) as E by (vm_compute; reflexivity).
  assert (files saved_world !! DefinitionFile fresh = Some (WellFormed schema)) as ED
    by (vm_compute; reflexivity).
  destruct (X10_save_then_load false ADDON_SETTINGS_ID configured_addon schema_world
              configured_addon saved_world (store AddonSettings.Loaded false) values_false
              fresh schema [("k", CSettingBool true true)])
    as (b' & w2 & EL & Es & _ & Eh & _);
    [|reflexivity|reflexivity| |exact ES|exact E|reflexivity|reflexivity
     |right; reflexivity|exact ED|reflexivity| |].
  - intros vals d [= <-]. split; reflexivity.
  - intros key node node0 Hn. unfold store in Hn. cbn in Hn.
    apply lookup_singleton_Some in Hn as [<- <-].
    destruct node0 as [d v| | |]; try discriminate. intros [= ->]. reflexivity.
  - intros key. destruct (decide (key = "k")) as [->|Hne]; [vm_compute; reflexivity|].
    cbn. by rewrite lookup_insert_ne, lookup_singleton_ne, lookup_empty.
  - split_and!; [exact ES|exact E|exact ED|]. by exists b', w2.
Defined.

(** X11 on the sample: "k" is set to false and read back. *)
Lemma X11_witness :
  IsTSetting TSettingBool ∧
  UpdateSettingBool "k" false ADDON_SETTINGS_ID initialized_addon schema_world
    = Ok true edited_addon schema_world ∧
  GetSettingBool "k" true ADDON_SETTINGS_ID edited_addon schema_world
    = Ok (true, false) edited_addon schema_world.
Proof.
  assert (IsTSetting TSettingBool) as HT by (left; reflexivity).
  assert (UpdateSettingBool "k" false ADDON_SETTINGS_ID initialized_addon schema_world
            = Ok true edited_addon schema_world) as E by (vm_compute; reflexivity).
  split_and!; [exact HT|exact E|].
  apply (X11_update_then_get TSettingBool ADDON_SETTINGS_ID "k" false initialized_addon
           schema_world edited_addon schema_world HT E true).
Defined.

(** X12 on the sample: the two updates on a schema with no setting. *)
Lemma X12_witness :
  StoredSetting "newkey" empty_schema_addon = None ∧
  "newkey" ≠ "" ∧
  UpdateSettingInt "newkey" 5 ADDON_SETTINGS_ID empty_schema_addon schema_world
    = Ok false empty_schema_addon schema_world ∧
  ∃ a', UpdateSetting "newkey" "v" ADDON_SETTINGS_ID empty_schema_addon schema_world
          = Ok () a' schema_world ∧
    is_Some (StoredSetting "newkey" a').
Proof.
  assert ("newkey" ≠ "") as Hk by discriminate.
  destruct (X12_updates_on_an_empty_schema TSettingInt ADDON_SETTINGS_ID "newkey" "v" 5%Z
              empty_schema_addon schema_world _ eq_refl eq_refl eq_refl Hk)
    as (Et & a' & Eu & Es & _).
  split_and!; [reflexivity|exact Hk|exact Et|]. by exists a'.
Defined.

(** X13 on the sample: "k" was set to false in memory, and a values
    document that does not mention it is loaded with [loadDefaults]. *)
Lemma X13_witness :
  m_settings edited_addon = Some (store AddonSettings.Initialized false) ∧
  ("k" ∉ ["other"]) ∧
  ∃ a', SettingsFromXML other_values true ADDON_SETTINGS_ID edited_addon schema_world
          = Ok true a' schema_world ∧
    StoredSetting "k" a' = Some (CSettingBool true true) ∧
    StoredSetting "other" a' = None.
Proof.
  assert ("k" ∉ ["other"]) as Hk by (by intros [=]%list_elem_of_singleton).
  destruct (@X13_values_from_a_document collaborators other_values true ADDON_SETTINGS_ID
              edited_addon schema_world (store AddonSettings.Initialized false)
              [("other", "x")] eq_refl eq_refl eq_refl eq_refl)
    as (a' & E & _ & _ & Ek & Edom).
  split_and!; [reflexivity|exact Hk|].
  exists a'. split_and!; [exact E| |].
  - rewrite (Ek "k" Hk). vm_compute. reflexivity.
  - destruct (StoredSetting "other" a') as [n|] eqn:En; [|reflexivity].
    exfalso. destruct (proj1 (Edom "other")) as [n' En']; [by rewrite En; eexists|].
    revert En'. vm_compute. discriminate.
Defined.

(** X14 on the sample: a document without a root, and a schema handed in
    where values are expected, with [loadDefaults]. *)
Lemma X14_witness :
  SettingsFromXML NoRoot true ADDON_SETTINGS_ID fresh empty_world = Ok false fresh empty_world ∧
  ∃ a' w', SettingsFromXML schema true ADDON_SETTINGS_ID edited_addon schema_world
             = Ok false a' w' ∧
    StoredSetting "k" edited_addon = Some (CSettingBool true false) ∧
    StoredSetting "k" a' = Some (CSettingBool true true).
Proof.
  split.
  - apply (proj1 (@X14_SettingsFromXML_failures collaborators NoRoot true ADDON_SETTINGS_ID fresh empty_world)).
    reflexivity.
  - destruct (proj2 (@X14_SettingsFromXML_failures collaborators schema true ADDON_SETTINGS_ID edited_addon
                       schema_world) (store AddonSettings.Initialized false)
                eq_refl eq_refl eq_refl eq_refl) as (a' & E & _ & _ & Ek).
    eexists a', _. split_and!; [exact E|vm_compute; reflexivity|].
    rewrite Ek. vm_compute. reflexivity.
Defined.

(** X15 on the sample: the first access of the add-on without a schema. *)
Lemma X15_witness :
  m_settings fresh = None ∧
  ∃ a' w', GetSettings ADDON_SETTINGS_ID fresh empty_world = Ok () a' w' ∧
    is_Some (m_settings a') ∧
    GetSettings ADDON_SETTINGS_ID a' w' = Ok () a' w'.
Proof.
  destruct (X15_GetSettings_yields_a_store ADDON_SETTINGS_ID fresh empty_world)
    as (a' & w' & E & Es & _ & _ & _ & E2).
  split; [reflexivity|]. by exists a', w'.
Defined.
